(** * Retrieval-and-answer dispatch layer of the RAG chat backend

    A shallow embedding of [backend/inference.py] (the five backend
    adapters and the dispatcher [inference]) and of the chat, selection
    and reset handlers of [backend/main.py].

    The collaborators of the code (embedding model, similarity index,
    document store, search clients, chains, hosted chat model) are not
    part of the program.  They are represented by a [World]: one oracle
    per external call, which sees the whole trace of calls made so far
    and either returns a value or raises.  Every external call and every
    [print] is recorded, in order, in that trace. *)

From Stdlib Require Import String Ascii List ZArith Bool Lia.
From Stdlib Require Import DecimalString.
Import ListNotations.

Open Scope string_scope.
Open Scope Z_scope.

(** ** Python strings and values *)

Module Py.

(** The one-character string "\n". *)
Definition nl : string := String "010"%char EmptyString.

Definition is_lower (c : ascii) : bool :=
  let n := nat_of_ascii c in (97 <=? n)%nat && (n <=? 122)%nat.

Definition is_upper (c : ascii) : bool :=
  let n := nat_of_ascii c in (65 <=? n)%nat && (n <=? 90)%nat.

Definition upper_char (c : ascii) : ascii :=
  if is_lower c then ascii_of_nat (nat_of_ascii c - 32) else c.

Definition lower_char (c : ascii) : ascii :=
  if is_upper c then ascii_of_nat (nat_of_ascii c + 32) else c.

Fixpoint lower (s : string) : string :=
  match s with
  | EmptyString => EmptyString
  | String c r => String (lower_char c) (lower r)
  end.

(** What [str.capitalize()] gives on a text of ASCII characters: first
    character upper-cased, the rest lower-cased.  On other texts the
    method follows the Unicode tables, which are not part of this
    development; the method itself is a field of [World] below. *)
Definition capitalize (s : string) : string :=
  match s with
  | EmptyString => EmptyString
  | String c r => String (upper_char c) (lower r)
  end.

(** The text holds ASCII characters only. *)
Fixpoint ascii_only (s : string) : bool :=
  match s with
  | EmptyString => true
  | String c r => (nat_of_ascii c <? 128)%nat && ascii_only r
  end.

(** [sep.join(parts)]. *)
Definition join (sep : string) (parts : list string) : string :=
  String.concat sep parts.

(** The values that flow through a conversation turn and a response:
    a [str], or [None] (what a function returns when it falls off its
    end). *)
Inductive value : Type :=
| VNone
| VStr (s : string).

(** [str(v)], which is also what an f-string placeholder [{v}] gives. *)
Definition str (v : value) : string :=
  match v with
  | VNone => "None"
  | VStr s => s
  end.

(** A dict with string keys and string values, in insertion order. *)
Definition dict : Type := list (string * string).

Fixpoint get (d : dict) (k : string) : option string :=
  match d with
  | [] => None
  | (k', v) :: d' => if String.eqb k' k then Some v else get d' k
  end.

(** Truthiness of a value that is [None] or a [str]. *)
Definition truthy (o : option string) : bool :=
  match o with
  | None => false
  | Some s => negb (String.eqb s "")
  end.

(** The string held by a reference known to be truthy. *)
Definition str_of (o : option string) : string :=
  match o with
  | None => ""
  | Some s => s
  end.

End Py.

(** ** Exceptions, results and the trace of external calls *)

(** Opaque references to live objects (retriever, index, client, model). *)
Definition handle : Type := nat.

(** A vector of floats; its components stand for the floats. *)
Definition vec : Type := list Z.

(** What [embed_query] gives back: a Python list of floats, or a numpy
    array of them.  Both can be wrapped by [np.array([...])]; only the
    array has a [tolist] method. *)
Inductive embedding : Type :=
| PyList (v : vec)
| NdArray (v : vec).

Definition components (q : embedding) : vec :=
  match q with
  | PyList v | NdArray v => v
  end.

Inductive exn : Type :=
| ValueError (msg : string)
| AttributeError (msg : string)
| IndexError (msg : string)
| TypeError (msg : string)
| KeyError (key : string)
| ExternalError (cls msg : string).

(** [str(e)]. *)
Definition str_exn (e : exn) : string :=
  match e with
  | ValueError m | AttributeError m | IndexError m | TypeError m => m
  | KeyError k => "'" ++ k ++ "'"
  | ExternalError _ m => m
  end.

Inductive result (A : Type) : Type :=
| Ret (a : A)
| Raise (e : exn).
Arguments Ret {A} a.
Arguments Raise {A} e.

(** A stage of a composed chain [a | b | c]. *)
Inductive stage : Type :=
| SRetriever (retriever : handle)
| SContextQuestion (retriever : handle)
| SPromptTemplate (input_variables : list string) (template : string)
| SChatPromptTemplate (template : string)
| SChat (chat : handle)
| SStrOutputParser.

Inductive chain_input : Type :=
| InText (text : string)
| InDict (d : Py.dict).

Record document : Type := { page_content : string }.
Record scored_point : Type := { payload : Py.dict }.
Record pinecone_match : Type := { metadata : Py.dict }.
Record query_response : Type := { matches : list pinecone_match }.

Inductive event : Type :=
| EPrint (text : string)
| ENewEmbeddings
| ENewChat (model : string)
| EEmbedQuery (emb : handle) (text : string)
| EIndexSearch (index : handle) (queries : list vec) (k : Z)
| EDocstoreSearch (docstore : handle) (doc_id : Z)
| EClientSearch (client : handle) (collection_name : string)
                (query_vector : vec) (limit : Z)
| EPineconeQuery (pinecone_index : handle) (vector : vec) (top_k : Z)
                 (include_metadata : bool)
| EAsRetriever (vs : handle)
| EChainInvoke (chain : list stage) (input : chain_input)
| EPredict (chat : handle) (prompt : string).

Definition trace : Type := list event.

(** The behaviour of everything outside the program: the collaborators,
    the [str.capitalize] method of the Python runtime, and the text of
    the [TypeError] raised when [None] is composed into a chain with
    [|]. *)
Record World : Type := {
  new_embeddings : trace -> result handle;
  new_chat : trace -> string -> result handle;
  embed_query : trace -> handle -> string -> result embedding;
  index_search :
    trace -> handle -> list vec -> Z -> result (list (list Z) * list (list Z));
  docstore_search : trace -> handle -> Z -> result document;
  client_search :
    trace -> handle -> string -> vec -> Z -> result (list scored_point);
  pinecone_query :
    trace -> handle -> vec -> Z -> bool -> result query_response;
  as_retriever : trace -> handle -> result handle;
  chain_invoke : trace -> list stage -> chain_input -> result string;
  predict : trace -> handle -> string -> result string;
  capitalize : string -> string;
  not_runnable : string
}.

(** ** The monad of the adapters: exceptions over a growing trace *)

Definition M (A : Type) : Type := trace -> result A * trace.

Definition ret {A} (a : A) : M A := fun tr => (Ret a, tr).

Definition raise {A} (e : exn) : M A := fun tr => (Raise e, tr).

Definition bind {A B} (m : M A) (k : A -> M B) : M B :=
  fun tr =>
    match m tr with
    | (Ret a, tr') => k a tr'
    | (Raise e, tr') => (Raise e, tr')
    end.

(** An external call: the oracle answers from the trace so far, and the
    call is appended to the trace whether it returns or raises. *)
Definition call {A} (ev : event) (oracle : trace -> result A) : M A :=
  fun tr => (oracle tr, (tr ++ [ev])%list).

Definition print (text : string) : M unit :=
  fun tr => (Ret tt, (tr ++ [EPrint text])%list).

(** A computation that makes no external call. *)
Definition lift {A} (r : result A) : M A := fun tr => (r, tr).

Declare Scope py_scope.
Delimit Scope py_scope with py.
Notation "x <- m ;; k" := (bind m (fun x => k))
  (at level 100, m at next level, right associativity) : py_scope.
Notation "m ;;; k" := (bind m (fun _ => k))
  (at level 100, right associativity) : py_scope.
Open Scope py_scope.

(** ** backend/inference.py *)

(** A conversation turn, [{"role": ..., "content": ...}]. *)
Record message : Type := { role : string; content : Py.value }.

(** [o.name(...)] on a reference that may be [None]. *)
Definition attr (o : option handle) (name : string) : M handle :=
  match o with
  | Some h => ret h
  | None =>
      raise (AttributeError
               ("'NoneType' object has no attribute '" ++ name ++ "'"))
  end.

(** [d[k]] on a dict. *)
Definition getitem (d : Py.dict) (k : string) : result string :=
  match Py.get d k with
  | Some v => Ret v
  | None => Raise (KeyError k)
  end.

(** [q.tolist()] *)
Definition tolist (q : embedding) : result vec :=
  match q with
  | NdArray v => Ret v
  | PyList _ =>
      Raise (AttributeError "'list' object has no attribute 'tolist'")
  end.

(** A list comprehension [[f x for x in xs]] whose body may raise. *)
Fixpoint comprehension {A B} (f : A -> result B) (xs : list A)
  : result (list B) :=
  match xs with
  | [] => Ret []
  | x :: xs' =>
      match f x with
      | Raise e => Raise e
      | Ret y =>
          match comprehension f xs' with
          | Raise e => Raise e
          | Ret ys => Ret (y :: ys)
          end
      end
  end.

(** [a[0][0]]. *)
Definition first_of_first (a : list (list Z)) : result Z :=
  match a with
  | (x :: _) :: _ => Ret x
  | _ => Raise (IndexError "index 0 is out of bounds for axis 0 with size 0")
  end.

Definition chroma_template : string :=
  Py.join Py.nl
    [ "You are an expert financial advisor. Use the context and chat history to answer accurately.";
      "";
      "Context: {context}";
      "";
      "{question}";
      "";
      "Answer (be specific and avoid hallucinations):" ].

Definition faiss_template : string :=
  Py.join Py.nl
    [ "You are an expert financial advisor. Use the context and chat history to answer questions accurately.";
      "Chat History:";
      "{history}";
      "";
      "Context:";
      "{context}";
      "";
      "Question:";
      "{question}";
      "";
      "Answer:" ].

Definition weaviate_template : string :=
  Py.join Py.nl
    [ "";
      "    You are an expert financial advisor. Use the context and chat history to answer accurately:";
      "";
      "    Context:";
      "    {context}";
      "";
      "    {question}";
      "";
      "    Answer:";
      "    " ].

Definition qdrant_prompt (context question_with_history : string) : string :=
  Py.join Py.nl
    [ "";
      "    You are a helpful assistant. Use the retrieved documents to answer:";
      "    ";
      "    Context:";
      "    " ++ context;
      "";
      "    " ++ question_with_history;
      "";
      "    Answer:";
      "    " ].

Definition pinecone_prompt (formatted_history context question : string)
  : string :=
  Py.join Py.nl
    [ "";
      "    You are a helpful assistant. Use the retrieved documents and chat history to answer:";
      "    ";
      "    Chat History:";
      "    " ++ formatted_history;
      "";
      "    Context:";
      "    " ++ context;
      "";
      "    Question: " ++ question;
      "    ";
      "    Answer:";
      "    " ].

Section Inference.

Variable W : World.

(** [ChatTogether(together_api_key=TOGETHER_API_KEY, model=chat_model)] *)
Definition ChatTogether (chat_model : string) : M handle :=
  call (ENewChat chat_model) (fun tr => new_chat W tr chat_model).

(** [OpenAIEmbeddings()] *)
Definition OpenAIEmbeddings : M handle :=
  call ENewEmbeddings (new_embeddings W).

(** [(a | b | c).invoke(input)] on a chain composed of live stages. *)
Definition invoke (chain : list stage) (input : chain_input) : M string :=
  call (EChainInvoke chain input) (fun tr => chain_invoke W tr chain input).

Definition inference_chroma (chat_model question : string)
    (retriever : option handle) (chat_history : list message) : M string :=
  chat_model <- ChatTogether chat_model ;;
  let history_context :=
    Py.join Py.nl
      (map (fun msg =>
              capitalize W (role msg) ++ ": " ++ Py.str (content msg))
           chat_history) in
  let question_with_history :=
    "Chat History:" ++ Py.nl ++ history_context ++ Py.nl ++ Py.nl
    ++ "New Question:" ++ Py.nl ++ question in
  let prompt_template :=
    SPromptTemplate ["context"; "question"] chroma_template in
  r <- match retriever with
       | Some r => ret r
       | None => raise (TypeError (not_runnable W))
       end ;;
  let retriever_chain :=
    [SRetriever r; prompt_template; SChat chat_model; SStrOutputParser] in
  result <- invoke retriever_chain (InText question_with_history) ;;
  print result ;;;
  ret result.

Definition inference_faiss (chat_model question : string)
    (embedding_model_global index docstore : option handle)
    (chat_history : list message) : M string :=
  match embedding_model_global with
  | None => raise (ValueError "Embedding model is not initialized.")
  | Some emb =>
      chat_model <- ChatTogether chat_model ;;
      let history_context :=
        Py.join Py.nl
          (map (fun msg =>
                  capitalize W (role msg) ++ ": " ++ Py.str (content msg))
               chat_history) in
      query_embedding <-
        call (EEmbedQuery emb question)
             (fun tr => embed_query W tr emb question) ;;
      ix <- attr index "search" ;;
      DI <- call (EIndexSearch ix [components query_embedding] 1)
                 (fun tr =>
                    index_search W tr ix [components query_embedding] 1) ;;
      let '(D', I') := DI in
      doc_id <- lift (first_of_first I') ;;
      ds <- attr docstore "search" ;;
      document <- call (EDocstoreSearch ds doc_id)
                       (fun tr => docstore_search W tr ds doc_id) ;;
      let context := page_content document in
      let prompt_template :=
        SPromptTemplate ["history"; "context"; "question"] faiss_template in
      let qa_chain := [prompt_template; SChat chat_model; SStrOutputParser] in
      answer <-
        invoke qa_chain
          (InDict [("history", history_context); ("context", context);
                   ("question", question)]) ;;
      print answer ;;;
      ret answer
  end.

Definition inference_qdrant (chat_model question : string)
    (embedding_model_global client : option handle)
    (chat_history : list message) : M string :=
  match embedding_model_global with
  | None => raise (ValueError "Embedding model is not initialized.")
  | Some emb =>
      let history_context :=
        Py.join Py.nl
          (map (fun msg =>
                  capitalize W (role msg) ++ ": " ++ Py.str (content msg))
               chat_history) in
      let question_with_history :=
        "Chat History:" ++ Py.nl ++ history_context ++ Py.nl ++ Py.nl
        ++ "New Question:" ++ Py.nl ++ question in
      query_embedding <-
        call (EEmbedQuery emb question_with_history)
             (fun tr => embed_query W tr emb question_with_history) ;;
      c <- attr client "search" ;;
      query_vector <- lift (tolist query_embedding) ;;
      search_results <-
        call (EClientSearch c "text_vectors" query_vector 2)
             (fun tr => client_search W tr c "text_vectors" query_vector 2) ;;
      contexts <-
        lift (comprehension
                (fun result => getitem (payload result) "page_content")
                search_results) ;;
      let context := Py.join Py.nl contexts in
      let prompt := qdrant_prompt context question_with_history in
      chat_model <- ChatTogether chat_model ;;
      response <- call (EPredict chat_model prompt)
                       (fun tr => predict W tr chat_model prompt) ;;
      print response ;;;
      ret response
  end.

Definition inference_pinecone (chat_model question : string)
    (embedding_model_global pinecone_index : option handle)
    (chat_history : list message) : M string :=
  match embedding_model_global with
  | None => raise (ValueError "Embedding model is not initialized.")
  | Some emb =>
      query_embedding <-
        call (EEmbedQuery emb question)
             (fun tr => embed_query W tr emb question) ;;
      pc <- attr pinecone_index "query" ;;
      vector <- lift (tolist query_embedding) ;;
      search_results <-
        call (EPineconeQuery pc vector 2 true)
             (fun tr => pinecone_query W tr pc vector 2 true) ;;
      contexts <-
        lift (comprehension
                (fun result => getitem (metadata result) "text")
                (matches search_results)) ;;
      let context := Py.join Py.nl contexts in
      let formatted_history :=
        Py.join Py.nl
          (map (fun msg =>
                  capitalize W (role msg) ++ ": " ++ Py.str (content msg))
               chat_history) in
      let prompt := pinecone_prompt formatted_history context question in
      chat_model <- ChatTogether chat_model ;;
      response <- call (EPredict chat_model prompt)
                       (fun tr => predict W tr chat_model prompt) ;;
      print response ;;;
      ret response
  end.

Definition inference_weaviate (chat_model question : string)
    (vs : option handle) (chat_history : list message) : M string :=
  chat_model <- ChatTogether chat_model ;;
  let history_context :=
    Py.join Py.nl
      (map (fun msg =>
              capitalize W (role msg) ++ ": " ++ Py.str (content msg))
           chat_history) in
  let question_with_history :=
    "Chat History:" ++ Py.nl ++ history_context ++ Py.nl ++ Py.nl
    ++ "New Question:" ++ Py.nl ++ question in
  let prompt := SChatPromptTemplate weaviate_template in
  store <- attr vs "as_retriever" ;;
  retriever <- call (EAsRetriever store) (fun tr => as_retriever W tr store) ;;
  let rag_chain :=
    [SContextQuestion retriever; prompt; SChat chat_model;
     SStrOutputParser] in
  result <- invoke rag_chain (InText question_with_history) ;;
  print result ;;;
  ret result.

(** The dispatcher.  An adapter returns the answer text; falling off
    the end of the function returns [None]. *)
Definition inference (vectordb_name chat_model question : string)
    (retriever embedding_model_global index docstore pinecone_index vs
       : option handle)
    (chat_history : list message) : M Py.value :=
  embedding_model_global <-
    match embedding_model_global with
    | None => e <- OpenAIEmbeddings ;; ret (Some e)
    | Some e => ret (Some e)
    end ;;
  if String.eqb vectordb_name "Chroma" then
    r <- inference_chroma chat_model question retriever chat_history ;;
    ret (Py.VStr r)
  else if String.eqb vectordb_name "FAISS" then
    r <- inference_faiss chat_model question embedding_model_global index
           docstore chat_history ;;
    ret (Py.VStr r)
  else if String.eqb vectordb_name "Qdrant" then
    r <- inference_qdrant chat_model question embedding_model_global vs
           chat_history ;;
    ret (Py.VStr r)
  else if String.eqb vectordb_name "Pinecone" then
    r <- inference_pinecone chat_model question embedding_model_global
           pinecone_index chat_history ;;
    ret (Py.VStr r)
  else if String.eqb vectordb_name "Weaviate" then
    r <- inference_weaviate chat_model question vs chat_history ;;
    ret (Py.VStr r)
  else
    print "Invalid Choice" ;;;
    ret Py.VNone.

End Inference.

(** ** backend/main.py *)

Module Main.

(** The module-level dict [session_state].  Its key set is fixed at
    start-up and never changes, so it is a record. *)
Record Session : Type := {
  retriever : option handle;
  preprocessing_done : bool;
  index : option handle;
  docstore : option handle;
  embedding_model_global : option handle;
  pinecone_index : option handle;
  vs : option handle;
  selected_vectordb : option string;
  selected_chat_model : option string;
  messages : list message
}.

Definition session_state : Session :=
  {| retriever := None; preprocessing_done := false; index := None;
     docstore := None; embedding_model_global := None;
     pinecone_index := None; vs := None; selected_vectordb := None;
     selected_chat_model := None; messages := [] |}.

(** [session_state["messages"] = ms] and [.append]: only that key is
    written. *)
Definition set_messages (s : Session) (ms : list message) : Session :=
  {| retriever := retriever s; preprocessing_done := preprocessing_done s;
     index := index s; docstore := docstore s;
     embedding_model_global := embedding_model_global s;
     pinecone_index := pinecone_index s; vs := vs s;
     selected_vectordb := selected_vectordb s;
     selected_chat_model := selected_chat_model s; messages := ms |}.

Definition set_selected_vectordb (s : Session) (v : option string)
  : Session :=
  {| retriever := retriever s; preprocessing_done := preprocessing_done s;
     index := index s; docstore := docstore s;
     embedding_model_global := embedding_model_global s;
     pinecone_index := pinecone_index s; vs := vs s;
     selected_vectordb := v;
     selected_chat_model := selected_chat_model s;
     messages := messages s |}.

Definition set_selected_chat_model (s : Session) (v : option string)
  : Session :=
  {| retriever := retriever s; preprocessing_done := preprocessing_done s;
     index := index s; docstore := docstore s;
     embedding_model_global := embedding_model_global s;
     pinecone_index := pinecone_index s; vs := vs s;
     selected_vectordb := selected_vectordb s;
     selected_chat_model := v;
     messages := messages s |}.

(** What a handler gives back: a JSON object with one key, or a raised
    [HTTPException]. *)
Inductive reply : Type :=
| Json (key : string) (v : Py.value)
| HTTPException (status_code : Z) (detail : string).

(** The state a handler runs in: the session dict and the trace. *)
Definition handler : Type := Session -> trace -> reply * Session * trace.

Definition select_vectordb (vectordb : string) : handler :=
  fun s tr =>
    let s := set_selected_vectordb s (Some vectordb) in
    (Json "message" (Py.VStr ("Selected Vector Database: " ++ vectordb)),
     s,
     (tr ++ [EPrint ("✅ Selected Vector Database: " ++ vectordb ++ Py.nl)])%list).

Definition select_chat_model (chat_model : string) : handler :=
  fun s tr =>
    let s := set_selected_chat_model s (Some chat_model) in
    (Json "message" (Py.VStr ("Selected Chat Model: " ++ chat_model)),
     s,
     (tr ++ [EPrint ("✅ Selected Chat Model: " ++ chat_model ++ Py.nl)])%list).

(** The session can chat: the two guards of [chat_with_bot] pass. *)
Definition ready_to_chat (s : Session) : bool :=
  preprocessing_done s
  && Py.truthy (selected_vectordb s)
  && Py.truthy (selected_chat_model s).

Section Chat.

Variable W : World.

(** Past the two guards both selections hold a non-empty string,
    which [Py.str_of] reads. *)
Definition chat_with_bot (prompt : string) : handler :=
  fun s tr =>
    if negb (preprocessing_done s) then
      (HTTPException 400
         "❌ Preprocessing must be completed before inferencing.",
       s, tr)
    else if negb (Py.truthy (selected_vectordb s))
            || negb (Py.truthy (selected_chat_model s)) then
      (HTTPException 400
         "❌ Please select both a vector database and a chat model before chatting.",
       s, tr)
    else
      let s :=
        set_messages s
          (messages s ++ [{| role := "user"; content := Py.VStr prompt |}])%list in
      match
        inference W
          (Py.str_of (selected_vectordb s))
          (Py.str_of (selected_chat_model s))
          prompt (retriever s) (embedding_model_global s) (index s)
          (docstore s) (pinecone_index s) (vs s) (messages s) tr
      with
      | (Ret response, tr) =>
          let s :=
            set_messages s
              (messages s ++ [{| role := "assistant"; content := response |}])%list in
          (Json "response" response, s,
           (tr ++ [EPrint ("🤖 Chatbot Response: " ++ Py.str response
                           ++ Py.nl)])%list)
      | (Raise e, tr) =>
          (HTTPException 500 ("Inference Error: " ++ str_exn e), s,
           (tr ++ [EPrint ("❌ Error in inference: " ++ str_exn e
                           ++ Py.nl)])%list)
      end.

End Chat.

Definition reset_chat : handler :=
  fun s tr =>
    let s := set_messages s [] in
    (Json "message" (Py.VStr "Chat history reset."), s,
     (tr ++ [EPrint ("🔄 Chat history reset." ++ Py.nl)])%list).

End Main.

(** ** Vocabulary of the statements *)

(** One rendered turn, ["<Role>: <content>"]. *)
Definition history_line (W : World) (turn : message) : string :=
  capitalize W (role turn) ++ ": " ++ Py.str (content turn).

(** The history text as the specification words it: the lines of the
    turns, in turn order, with a newline between consecutive lines. *)
Fixpoint rendered_history (W : World) (turns : list message) : string :=
  match turns with
  | [] => ""
  | turn :: later =>
      match later with
      | [] => history_line W turn
      | _ :: _ => history_line W turn ++ Py.nl ++ rendered_history W later
      end
  end.

(** The runtime's [str.capitalize] on ASCII texts. *)
Definition ascii_capitalize (W : World) : Prop :=
  forall s, Py.ascii_only s = true -> capitalize W s = Py.capitalize s.

(** The text that joins the history and the new question. *)
Definition question_with_history (W : World) (turns : list message)
    (question : string) : string :=
  "Chat History:" ++ Py.nl ++ rendered_history W turns ++ Py.nl ++ Py.nl
  ++ "New Question:" ++ Py.nl ++ question.

(** A computation only appends to the trace, and every event it appends
    satisfies [P]. *)
Definition emits {A} (P : event -> Prop) (m : M A) : Prop :=
  forall tr, exists out, snd (m tr) = (tr ++ out)%list /\ Forall P out.

(** The closed set of backend names of the dispatcher. *)
Definition supported (vectordb_name : string) : bool :=
  String.eqb vectordb_name "Chroma" || String.eqb vectordb_name "FAISS"
  || String.eqb vectordb_name "Qdrant" || String.eqb vectordb_name "Pinecone"
  || String.eqb vectordb_name "Weaviate".

Definition is_raise {A} (r : result A) : bool :=
  match r with
  | Raise _ => true
  | Ret _ => false
  end.

(** The retrieval count carried by a retrieval call is the one of its
    backend: 1 for the similarity index, 2 for the two search clients. *)
Definition retrieval_count_ok (e : event) : Prop :=
  match e with
  | EIndexSearch _ _ k => k = 1
  | EClientSearch _ _ _ limit => limit = 2
  | EPineconeQuery _ _ top_k _ => top_k = 2
  | _ => True
  end.

Definition is_embed_query (e : event) : bool :=
  match e with
  | EEmbedQuery _ _ => true
  | _ => false
  end.

Definition is_new_embeddings (e : event) : bool :=
  match e with
  | ENewEmbeddings => true
  | _ => false
  end.

(** Number of [OpenAIEmbeddings()] constructions in a trace. *)
Definition constructions (tr : trace) : nat :=
  length (filter is_new_embeddings tr).

(** Every embedding call goes to the model [m]. *)
Definition embeds_with (m : option handle) (e : event) : Prop :=
  match e with
  | EEmbedQuery emb _ => m = Some emb
  | _ => True
  end.

(** Every call made on a search client or on a vector store goes to the
    object that [vs] refers to. *)
Definition store_is (vs : option handle) (e : event) : Prop :=
  match e with
  | EClientSearch client _ _ _ => vs = Some client
  | EAsRetriever store => vs = Some store
  | _ => True
  end.

(** Every text handed to a chain or to the chat model carries the
    rendered history of [turns] in its history slot. *)
Definition carries_history (W : World) (turns : list message)
    (question : string) (e : event) : Prop :=
  match e with
  | EChainInvoke _ (InText text) =>
      text = question_with_history W turns question
  | EChainInvoke _ (InDict d) =>
      Py.get d "history" = Some (rendered_history W turns)
  | EPredict _ prompt =>
      exists context,
        prompt
        = qdrant_prompt context (question_with_history W turns question)
        \/ prompt
           = pinecone_prompt (rendered_history W turns) context question
  | _ => True
  end.

(** The three kinds of retrieval call. *)
Inductive retrieval : Type := IndexSearch | ClientSearch | PineconeQuery.

(** Every retrieval call is of kind [kind] and asks for [k] results. *)
Definition retrieves (kind : retrieval) (k : Z) (e : event) : Prop :=
  match e with
  | EIndexSearch _ _ k' => kind = IndexSearch /\ k' = k
  | EClientSearch _ _ _ limit => kind = ClientSearch /\ limit = k
  | EPineconeQuery _ _ top_k _ => kind = PineconeQuery /\ top_k = k
  | _ => True
  end.

(** *** Concrete collaborators used in the examples *)

Definition down {A} : result A := Raise (ExternalError "ConnectionError" "down").

(** Every collaborator is unreachable. *)
Definition W_down : World :=
  {| new_embeddings := fun _ => down;
     new_chat := fun _ _ => down;
     embed_query := fun _ _ _ => down;
     index_search := fun _ _ _ _ => down;
     docstore_search := fun _ _ _ => down;
     client_search := fun _ _ _ _ _ => down;
     pinecone_query := fun _ _ _ _ _ => down;
     as_retriever := fun _ _ => down;
     chain_invoke := fun _ _ _ => down;
     predict := fun _ _ _ => down;
     capitalize := Py.capitalize;
     not_runnable := "unsupported operand type(s) for |" |}.

(** Stub collaborators: the embedding model constructed by
    [OpenAIEmbeddings()] (handle 1) answers with a Python list, any other
    with an array; the index answers id 7, the document store holds one
    text under id 7, and the chat model echoes what it is given. *)
Definition W_stub : World :=
  {| new_embeddings := fun _ => Ret 1%nat;
     new_chat := fun _ _ => Ret 2%nat;
     embed_query := fun _ emb _ =>
       if Nat.eqb emb 1 then Ret (PyList [3; 1; 4])
       else Ret (NdArray [3; 1; 4]);
     index_search := fun _ _ _ _ => Ret ([[0]], [[7]]);
     docstore_search := fun _ _ doc_id =>
       if doc_id =? 7
       then Ret {| page_content := "Compound interest is interest on interest." |}
       else Raise (ExternalError "ValueError" "ID not found.");
     client_search := fun _ _ _ _ _ =>
       Ret [ {| payload := [("page_content", "first")] |};
             {| payload := [("page_content", "second")] |} ];
     pinecone_query := fun _ _ _ _ _ =>
       Ret {| matches := [ {| metadata := [("text", "first")] |};
                           {| metadata := [("text", "second")] |} ] |};
     as_retriever := fun _ _ => Ret 4%nat;
     chain_invoke := fun _ _ input =>
       match input with
       | InText text => Ret text
       | InDict d => Ret (Py.str_of (Py.get d "context"))
       end;
     predict := fun _ _ prompt => Ret prompt;
     capitalize := Py.capitalize;
     not_runnable := "unsupported operand type(s) for |" |}.

Definition two_turns : list message :=
  [ {| role := "user"; content := Py.VStr "hi" |};
    {| role := "assistant"; content := Py.VStr "hello" |} ].

(** A session that passed preprocessing and both selections; as in the
    handlers above, no backend handle and no embedding model is stored. *)
Definition ready_session (vectordb : string) : Main.Session :=
  {| Main.retriever := None; Main.preprocessing_done := true;
     Main.index := None; Main.docstore := None;
     Main.embedding_model_global := None; Main.pinecone_index := None;
     Main.vs := None; Main.selected_vectordb := Some vectordb;
     Main.selected_chat_model := Some "meta-llama/Llama-3-8b-chat-hf";
     Main.messages := [] |}.

(** The same, with an index and a document store at hand. *)
Definition faiss_session : Main.Session :=
  {| Main.retriever := None; Main.preprocessing_done := true;
     Main.index := Some 10%nat; Main.docstore := Some 11%nat;
     Main.embedding_model_global := None; Main.pinecone_index := None;
     Main.vs := None; Main.selected_vectordb := Some "FAISS";
     Main.selected_chat_model := Some "meta-llama/Llama-3-8b-chat-hf";
     Main.messages := [] |}.

(** ** backend/main.py: the preprocessing handler *)

Module Preprocess.

(** [str(n)] for an [int]. *)
Definition str_int (n : Z) : string := NilZero.string_of_int (Z.to_int n).

(** An uploaded file; only its name is read here. *)
Record UploadFile : Type := { filename : option string }.

(** What [scrape_web_data] returns; the handler passes it on unread. *)
Definition scraped : Type := Py.dict.

(** The calls the handler makes, in order: its prints and its two
    awaited collaborators. *)
Inductive pevent : Type :=
| PPrint (text : string)
| PScrape (links_list : list string)
| PVectordbs (doc_files : list UploadFile) (links_list : list string)
             (embedding_model : string) (chunk_size chunk_overlap : Z).

Definition plog : Type := list pevent.

(** What can be raised inside the handler: an [HTTPException], which is
    an [Exception] like any other, or an exception of a collaborator. *)
Inductive raised : Type :=
| Http (status_code : Z) (detail : string)
| Other (e : exn).

(** The functions of other modules the handler calls.  [json_loads]
    answers with the list of links the text encodes, or raises;
    [url] is the truth value of [validators.url]; [str_http] is [str]
    of an [HTTPException]. *)
Record Collaborators : Type := {
  json_loads : string -> result (list string);
  json_dumps : scraped -> result string;
  url : string -> bool;
  scrape_web_data : plog -> list string -> result scraped;
  preprocess_vectordbs :
    plog -> list UploadFile -> list string -> string -> Z -> Z -> result unit;
  str_http : Z -> string -> string
}.

Inductive outcome (A : Type) : Type :=
| Done (a : A)
| Failed (e : raised).
Arguments Done {A} a.
Arguments Failed {A} e.

(** The handler runs over the session dict and its log. *)
Definition PM (A : Type) : Type :=
  Main.Session * plog -> outcome A * (Main.Session * plog).

Definition pret {A} (a : A) : PM A := fun st => (Done a, st).

Definition praise {A} (e : raised) : PM A := fun st => (Failed e, st).

Definition pbind {A B} (m : PM A) (k : A -> PM B) : PM B :=
  fun st =>
    match m st with
    | (Done a, st') => k a st'
    | (Failed e, st') => (Failed e, st')
    end.

(** [try: m  except Exception as e: handler e] *)
Definition try_except {A} (m : PM A) (handler : raised -> PM A) : PM A :=
  fun st =>
    match m st with
    | (Done a, st') => (Done a, st')
    | (Failed e, st') => handler e st'
    end.

Definition pprint (text : string) : PM unit :=
  fun st => (Done tt, (fst st, (snd st ++ [PPrint text])%list)).

(** A call of a function that keeps no log entry ([json.loads],
    [json.dumps]). *)
Definition plift {A} (r : result A) : PM A :=
  fun st =>
    match r with
    | Ret a => (Done a, st)
    | Raise e => (Failed (Other e), st)
    end.

(** An awaited collaborator. *)
Definition pcall {A} (ev : pevent) (oracle : plog -> result A) : PM A :=
  fun st =>
    match oracle (snd st) with
    | Ret a => (Done a, (fst st, (snd st ++ [ev])%list))
    | Raise e => (Failed (Other e), (fst st, (snd st ++ [ev])%list))
    end.

(** [session_state["preprocessing_done"] = True] *)
Definition mark_done : PM unit :=
  fun st =>
    let s := fst st in
    (Done tt,
     ({| Main.retriever := Main.retriever s;
         Main.preprocessing_done := true;
         Main.index := Main.index s; Main.docstore := Main.docstore s;
         Main.embedding_model_global := Main.embedding_model_global s;
         Main.pinecone_index := Main.pinecone_index s; Main.vs := Main.vs s;
         Main.selected_vectordb := Main.selected_vectordb s;
         Main.selected_chat_model := Main.selected_chat_model s;
         Main.messages := Main.messages s |},
      snd st)).

Declare Scope pre_scope.
Delimit Scope pre_scope with pre.
Notation "x <~ m ;; k" := (pbind m (fun x => k))
  (at level 100, m at next level, right associativity) : pre_scope.
Notation "m ;;~ k" := (pbind m (fun _ => k))
  (at level 100, right associativity) : pre_scope.
Open Scope pre_scope.

(** What the handler gives back. *)
Inductive reply : Type :=
| Success (status message : string) (scraped_content : scraped)
| HTTPException (status_code : Z) (detail : string).

Section Handler.

Variable C : Collaborators.

(** [str(e)] *)
Definition str_raised (e : raised) : string :=
  match e with
  | Http status_code detail => str_http C status_code detail
  | Other e => str_exn e
  end.

(** [for link in links_list: if not validators.url(link): raise ...] *)
Fixpoint validate_links (links_list : list string) : PM unit :=
  match links_list with
  | [] => pret tt
  | link :: rest =>
      if negb (url C link) then
        praise (Http 400 ("❌ Invalid URL: " ++ link))
      else validate_links rest
  end.

(** [for file in doc_files: if not file.filename: raise ...] *)
Fixpoint validate_files (doc_files : list UploadFile) : PM unit :=
  match doc_files with
  | [] => pret tt
  | file :: rest =>
      if negb (Py.truthy (filename file)) then
        praise (Http 400 "❌ One of the uploaded files is empty!")
      else validate_files rest
  end.

Definition preprocess (doc_files : list UploadFile)
    (links embedding_model : string) (chunk_size chunk_overlap : Z)
  : PM reply :=
  try_except
    (pprint (Py.nl ++ "🔍 Preprocessing Started...") ;;~
     pprint ("📂 Received " ++ str_int (Z.of_nat (length doc_files))
             ++ " document(s)") ;;~
     pprint ("🔗 Links received: " ++ links) ;;~
     pprint ("📊 Embedding Model: " ++ embedding_model) ;;~
     pprint ("🔢 Chunk Size: " ++ str_int chunk_size ++ ", Chunk Overlap: "
             ++ str_int chunk_overlap) ;;~
     links_list <~ plift (json_loads C links) ;;
     validate_links links_list ;;~
     match doc_files with
     | [] => praise (Http 400 "❌ No documents uploaded!")
     | _ :: _ => pret tt
     end ;;~
     validate_files doc_files ;;~
     scraped_content <~
       try_except
         (scraped_content <~
            pcall (PScrape links_list)
                  (fun log => scrape_web_data C log links_list) ;;
          pprint ("✅ Web Scraping Completed!" ++ Py.nl) ;;~
          dumped <~ plift (json_dumps C scraped_content) ;;
          pprint dumped ;;~
          pret scraped_content)
         (fun e =>
            pprint ("❌ Web scraping error: " ++ str_raised e) ;;~
            praise (Http 500 ("Web Scraping failed: " ++ str_raised e))) ;;
     try_except
       (result <~
          pcall (PVectordbs doc_files links_list embedding_model chunk_size
                   chunk_overlap)
                (fun log =>
                   preprocess_vectordbs C log doc_files links_list
                     embedding_model chunk_size chunk_overlap) ;;
        mark_done ;;~
        pret (Success "success" "Preprocessing completed successfully!"
                scraped_content))
       (fun e =>
          pprint ("❌ Error in preprocess_vectordbs: " ++ str_raised e
                  ++ Py.nl) ;;~
          praise (Http 500 ("Preprocessing failed: " ++ str_raised e))))
    (fun e =>
       pprint ("❌ Unexpected Error: " ++ str_raised e ++ Py.nl) ;;~
       praise (Http 500 ("Unexpected Error: " ++ str_raised e))).

(** The handler as the server runs it: an exception other than an
    [HTTPException] leaving it would be answered by the framework's own
    status 500. *)
Definition handle_preprocess (doc_files : list UploadFile)
    (links embedding_model : string) (chunk_size chunk_overlap : Z)
    (s : Main.Session) (log : plog) : reply * Main.Session * plog :=
  match
    preprocess doc_files links embedding_model chunk_size chunk_overlap
      (s, log)
  with
  | (Done r, (s', log')) => (r, s', log')
  | (Failed (Http status_code detail), (s', log')) =>
      (HTTPException status_code detail, s', log')
  | (Failed (Other _), (s', log')) =>
      (HTTPException 500 "Internal Server Error", s', log')
  end.

End Handler.

End Preprocess.

(** ** The sessions the handlers of main.py can produce *)

(** One request served: the session before and after. *)
Inductive step (W : World) (C : Preprocess.Collaborators)
  : Main.Session -> Main.Session -> Prop :=
| step_preprocess doc_files links embedding_model chunk_size chunk_overlap
    s log :
    step W C s
      (snd (fst (Preprocess.handle_preprocess C doc_files links
                   embedding_model chunk_size chunk_overlap s log)))
| step_select_vectordb vectordb s tr :
    step W C s (snd (fst (Main.select_vectordb vectordb s tr)))
| step_select_chat_model chat_model s tr :
    step W C s (snd (fst (Main.select_chat_model chat_model s tr)))
| step_chat prompt s tr :
    step W C s (snd (fst (Main.chat_with_bot W prompt s tr)))
| step_reset s tr :
    step W C s (snd (fst (Main.reset_chat s tr))).

Inductive reachable (W : World) (C : Preprocess.Collaborators)
  : Main.Session -> Prop :=
| reach_start : reachable W C Main.session_state
| reach_step s s' : reachable W C s -> step W C s s' -> reachable W C s'.

(** The backends whose adapter calls a method of a stored handle. *)
Definition needs_handle (vectordb_name : string) : bool :=
  String.eqb vectordb_name "FAISS" || String.eqb vectordb_name "Qdrant"
  || String.eqb vectordb_name "Pinecone"
  || String.eqb vectordb_name "Weaviate".

(** The turn history reads as a dialogue: every turn is a user's or an
    assistant's, and an assistant's turn comes right after a user's. *)
Fixpoint dialogue_from (after_user : bool) (turns : list message) : bool :=
  match turns with
  | [] => true
  | turn :: later =>
      if String.eqb (role turn) "user" then dialogue_from true later
      else if String.eqb (role turn) "assistant" then
        after_user && dialogue_from false later
      else false
  end.

Definition dialogue (turns : list message) : bool := dialogue_from false turns.

(** Events that reach a retrieval backend or a language model. *)
Definition is_retrieval (e : event) : bool :=
  match e with
  | EIndexSearch _ _ _ | EDocstoreSearch _ _ | EClientSearch _ _ _ _
  | EPineconeQuery _ _ _ _ | EAsRetriever _ => true
  | _ => false
  end.

Definition is_generation (e : event) : bool :=
  match e with
  | EChainInvoke _ _ | EPredict _ _ => true
  | _ => false
  end.

(** Stub collaborators of the preprocessing handler: every text but
    "oops" decodes to two links, a link is valid when it starts with
    "https://", scraping and indexing succeed. *)
Definition C_stub : Preprocess.Collaborators :=
  {| Preprocess.json_loads := fun text =>
       if String.eqb text "oops"
       then Raise (ExternalError "JSONDecodeError" "Expecting value")
       else Ret ["https://example.com"; text];
     Preprocess.json_dumps := fun _ => Ret "{}";
     Preprocess.url := fun link => String.prefix "https://" link;
     Preprocess.scrape_web_data := fun _ _ =>
       Ret [("https://example.com", "Example Domain")];
     Preprocess.preprocess_vectordbs := fun _ _ _ _ _ _ => Ret tt;
     Preprocess.str_http := fun status_code detail =>
       Preprocess.str_int status_code ++ ": " ++ detail |}.

Definition one_file : list Preprocess.UploadFile :=
  [ {| Preprocess.filename := Some "report.pdf" |} ].

(** Collaborators whose scraper is unreachable. *)
Definition C_offline : Preprocess.Collaborators :=
  {| Preprocess.json_loads := Preprocess.json_loads C_stub;
     Preprocess.json_dumps := Preprocess.json_dumps C_stub;
     Preprocess.url := Preprocess.url C_stub;
     Preprocess.scrape_web_data := fun _ _ =>
       Raise (ExternalError "TimeoutError" "timed out");
     Preprocess.preprocess_vectordbs :=
       Preprocess.preprocess_vectordbs C_stub;
     Preprocess.str_http := Preprocess.str_http C_stub |}.

(** The first validation of the preprocessing handler that fails, if
    any: decoding the links, then each link in order, then the presence
    of documents, then the name of each document. *)
Definition first_rejection (C : Preprocess.Collaborators)
    (doc_files : list Preprocess.UploadFile) (links : string)
  : option Preprocess.raised :=
  match Preprocess.json_loads C links with
  | Raise e => Some (Preprocess.Other e)
  | Ret links_list =>
      match find (fun link => negb (Preprocess.url C link)) links_list with
      | Some link => Some (Preprocess.Http 400 ("❌ Invalid URL: " ++ link))
      | None =>
          match doc_files with
          | [] => Some (Preprocess.Http 400 "❌ No documents uploaded!")
          | _ :: _ =>
              if forallb
                   (fun file => Py.truthy (Preprocess.filename file))
                   doc_files
              then None
              else Some (Preprocess.Http 400
                           "❌ One of the uploaded files is empty!")
          end
      end
  end.

(** The five lines the preprocessing handler prints on entry. *)
Definition entry_prints (doc_files : list Preprocess.UploadFile)
    (links embedding_model : string) (chunk_size chunk_overlap : Z)
  : Preprocess.plog :=
  [ Preprocess.PPrint (Py.nl ++ "🔍 Preprocessing Started...");
    Preprocess.PPrint
      ("📂 Received " ++ Preprocess.str_int (Z.of_nat (length doc_files))
       ++ " document(s)");
    Preprocess.PPrint ("🔗 Links received: " ++ links);
    Preprocess.PPrint ("📊 Embedding Model: " ++ embedding_model);
    Preprocess.PPrint
      ("🔢 Chunk Size: " ++ Preprocess.str_int chunk_size
       ++ ", Chunk Overlap: " ++ Preprocess.str_int chunk_overlap) ].

(** A session with [preprocessing_done] set and nothing else changed. *)
Definition marked_done (s : Main.Session) : Main.Session :=
  fst (snd (Preprocess.mark_done (s, []))).

(** *** Vocabulary of the further properties *)

(** An event that is neither a retrieval call nor a language-model
    call. *)
Definition quiet (e : event) : Prop :=
  is_retrieval e = false /\ is_generation e = false.

(** No backend handle and no embedding model is stored. *)
Definition no_handles (s : Main.Session) : Prop :=
  Main.retriever s = None /\ Main.index s = None /\ Main.docstore s = None
  /\ Main.pinecone_index s = None /\ Main.vs s = None
  /\ Main.embedding_model_global s = None.

Definition user_turn (prompt : string) : message :=
  {| role := "user"; content := Py.VStr prompt |}.

Definition assistant_turn (response : Py.value) : message :=
  {| role := "assistant"; content := response |}.

(** The dict has the key; the values under the key, in order. *)
Definition has_key (key : string) (d : Py.dict) : bool :=
  match Py.get d key with
  | Some _ => true
  | None => false
  end.

Definition texts_of (key : string) (dicts : list Py.dict) : list string :=
  map (fun d => Py.str_of (Py.get d key)) dicts.

(** What a chain-style adapter may do itself. *)
Definition delegated (e : event) : Prop :=
  match e with
  | ENewChat _ | EAsRetriever _ | EChainInvoke _ _ | EPrint _ => True
  | _ => False
  end.

(** Collaborators whose index finds nothing. *)
Definition W_empty_index : World :=
  {| new_embeddings := new_embeddings W_stub;
     new_chat := new_chat W_stub;
     embed_query := embed_query W_stub;
     index_search := fun _ _ _ _ => Ret ([[]], [[]]);
     docstore_search := docstore_search W_stub;
     client_search := client_search W_stub;
     pinecone_query := pinecone_query W_stub;
     as_retriever := as_retriever W_stub;
     chain_invoke := chain_invoke W_stub;
     predict := predict W_stub;
     capitalize := capitalize W_stub;
     not_runnable := not_runnable W_stub |}.

(** * Properties *)

(** ** Rules for [emits] *)

Section EmitsRules.

Context {A B : Type} (P : event -> Prop).

Lemma emits_ret (a : A) : emits P (ret a).
Proof. intro tr. exists []. cbn. rewrite app_nil_r. auto. Qed.

Lemma emits_raise (e : exn) : emits P (@raise A e).
Proof. intro tr. exists []. cbn. rewrite app_nil_r. auto. Qed.

Lemma emits_lift (r : result A) : emits P (lift r).
Proof. intro tr. exists []. cbn. rewrite app_nil_r. auto. Qed.

Lemma emits_call (ev : event) (oracle : trace -> result A) :
  P ev -> emits P (call ev oracle).
Proof. intros Hev tr. exists [ev]. cbn. auto. Qed.

Lemma emits_bind (m : M A) (k : A -> M B) :
  emits P m -> (forall a, emits P (k a)) -> emits P (bind m k).
Proof.
  intros Hm Hk tr. unfold bind.
  destruct (Hm tr) as [out1 [E1 F1]].
  destruct (m tr) as [[a | e] tr1]; cbn in E1; subst tr1.
  - destruct (Hk a (tr ++ out1)%list) as [out2 [E2 F2]].
    exists (out1 ++ out2)%list. rewrite E2, app_assoc.
    split; [reflexivity | apply Forall_app; auto].
  - exists out1. auto.
Qed.

End EmitsRules.

Lemma emits_print (P : event -> Prop) (text : string) :
  P (EPrint text) -> emits P (print text).
Proof. intros Hev tr. exists [EPrint text]. cbn. auto. Qed.

Lemma emits_attr (P : event -> Prop) (o : option handle) (name : string) :
  emits P (attr o name).
Proof. destruct o; [apply emits_ret | apply emits_raise]. Qed.

(** A method call on a reference: the continuation runs only on the
    object the reference holds. *)
Lemma emits_bind_attr {B} (P : event -> Prop) (o : option handle)
    (name : string) (k : handle -> M B) :
  (forall h, o = Some h -> emits P (k h)) -> emits P (bind (attr o name) k).
Proof.
  intros Hk. destruct o as [h |].
  - intro tr. exact (Hk h eq_refl tr).
  - intro tr. exists []. cbn. rewrite app_nil_r. auto.
Qed.

(** A call followed by a continuation: the call is the first event. *)
Lemma bind_call_first {A B} (P : event -> Prop) (ev : event)
    (oracle : trace -> result A) (k : A -> M B) (tr : trace) :
  (forall a, emits P (k a)) ->
  exists rest,
    snd (bind (call ev oracle) k tr) = (tr ++ ev :: rest)%list
    /\ Forall P rest
    /\ match oracle tr with
       | Ret a => bind (call ev oracle) k tr = k a (tr ++ [ev])%list
       | Raise e => rest = [] /\ fst (bind (call ev oracle) k tr) = Raise e
       end.
Proof.
  intros Hk. unfold bind, call.
  destruct (oracle tr) as [a | e].
  - destruct (Hk a (tr ++ [ev])%list) as [out [E F]].
    exists out. rewrite E, <- app_assoc. auto.
  - exists []. cbn. auto.
Qed.

Create HintDb emits.
#[export] Hint Resolve emits_ret emits_raise emits_lift emits_attr : emits.

(** Walk through an adapter: one rule per construct of the code. *)
Ltac emits_step :=
  match goal with
  | |- emits ?P (bind (ret ?x) ?k) => change (emits P (k x)); cbv beta
  | |- emits _ (bind (attr _ _) _) => apply emits_bind_attr; intros ? ?; subst
  | |- emits _ (bind _ _) => apply emits_bind; [ | intro ]
  | |- emits _ (call _ _) => apply emits_call
  | |- emits _ (print _) => apply emits_print
  | |- emits _ (match ?x with _ => _ end) => destruct x
  | |- emits _ _ => solve [auto with emits]
  end.

Ltac emits_walk := repeat emits_step.

(** Split a run at its first external call; what follows satisfies [P]. *)
Ltac first_call P :=
  match goal with
  | |- context [bind (call ?ev ?oracle) ?k ?tr] =>
      let rest := fresh "rest" in
      let E := fresh "E" in
      let F := fresh "F" in
      let R := fresh "R" in
      destruct (bind_call_first P ev oracle k tr) as [rest (E & F & R)];
      [ intro; emits_walk | ]
  end.

(** ** History rendering *)

Lemma join_lines_rendered (W : World) (turns : list message) :
  Py.join Py.nl
    (map (fun msg => capitalize W (role msg) ++ ": " ++ Py.str (content msg))
         turns)
  = rendered_history W turns.
Proof.
  induction turns as [| turn later IH]; [reflexivity |].
  destruct later as [| next later']; [reflexivity |].
  change (rendered_history W (turn :: next :: later'))
    with (history_line W turn ++ Py.nl ++ rendered_history W (next :: later')).
  rewrite <- IH. reflexivity.
Qed.

Lemma question_with_history_eq (W : World) (turns : list message)
    (question : string) :
  "Chat History:" ++ Py.nl
  ++ Py.join Py.nl
       (map (fun msg =>
               capitalize W (role msg) ++ ": " ++ Py.str (content msg))
            turns)
  ++ Py.nl ++ Py.nl ++ "New Question:" ++ Py.nl ++ question
  = question_with_history W turns question.
Proof. unfold question_with_history. now rewrite join_lines_rendered. Qed.

(** ** The runs of the adapters when their collaborators return *)

(** An external call that is reached is recorded. *)
Lemma call_recorded {A B} (ev : event) (oracle : trace -> result A)
    (k : A -> M B) (tr : trace) :
  (forall a, emits (fun _ => True) (k a)) ->
  In ev (snd (bind (call ev oracle) k tr)).
Proof.
  intros Hk.
  destruct (bind_call_first (fun _ => True) ev oracle k tr Hk)
    as [rest (E & _ & _)].
  rewrite E. apply in_or_app. right. left. reflexivity.
Qed.

Lemma chroma_steps
    (W : World) (chat_model question : string) (retriever : handle)
    (chat_history : list message) (tr : trace) (chat : handle) :
  let tr1 := (tr ++ [ENewChat chat_model])%list in
  let retriever_chain :=
    [SRetriever retriever;
     SPromptTemplate ["context"; "question"] chroma_template; SChat chat;
     SStrOutputParser] in
  let input := InText (question_with_history W chat_history question) in
  new_chat W tr chat_model = Ret chat ->
  inference_chroma W chat_model question (Some retriever) chat_history tr
  = match chain_invoke W tr1 retriever_chain input with
    | Ret result =>
        (Ret result,
         (tr1 ++ [EChainInvoke retriever_chain input; EPrint result])%list)
    | Raise e => (Raise e, (tr1 ++ [EChainInvoke retriever_chain input])%list)
    end.
Proof.
  intros tr1 retriever_chain input Hchat. subst tr1 retriever_chain input.
  unfold inference_chroma, ChatTogether, invoke. cbv zeta.
  rewrite question_with_history_eq.
  unfold bind at 1. unfold call at 1. rewrite Hchat.
  unfold bind at 1. unfold ret at 1.
  unfold bind, call, print, ret.
  destruct (chain_invoke W _ _ _); [now rewrite <- app_assoc | reflexivity].
Qed.

Lemma weaviate_steps
    (W : World) (chat_model question : string) (vs : handle)
    (chat_history : list message) (tr : trace) (chat retriever : handle) :
  let tr1 := (tr ++ [ENewChat chat_model])%list in
  let tr2 := (tr1 ++ [EAsRetriever vs])%list in
  let rag_chain :=
    [SContextQuestion retriever; SChatPromptTemplate weaviate_template;
     SChat chat; SStrOutputParser] in
  let input := InText (question_with_history W chat_history question) in
  new_chat W tr chat_model = Ret chat ->
  as_retriever W tr1 vs = Ret retriever ->
  inference_weaviate W chat_model question (Some vs) chat_history tr
  = match chain_invoke W tr2 rag_chain input with
    | Ret result =>
        (Ret result, (tr2 ++ [EChainInvoke rag_chain input; EPrint result])%list)
    | Raise e => (Raise e, (tr2 ++ [EChainInvoke rag_chain input])%list)
    end.
Proof.
  intros tr1 tr2 rag_chain input Hchat Hretriever.
  subst tr1 tr2 rag_chain input.
  unfold inference_weaviate, ChatTogether, invoke. cbv zeta.
  rewrite question_with_history_eq.
  unfold bind at 1. unfold call at 1. rewrite Hchat.
  unfold bind at 1. unfold attr at 1, ret at 1.
  unfold bind at 1. unfold call at 1. rewrite Hretriever.
  unfold bind, call, print, ret.
  destruct (chain_invoke W _ _ _); [now rewrite <- app_assoc | reflexivity].
Qed.

Lemma faiss_steps
    (W : World) (chat_model question : string) (emb index docstore : handle)
    (chat_history : list message) (tr : trace)
    (chat : handle) (query_embedding : embedding) (D' : list (list Z))
    (doc_id : Z) (row : list Z) (rows : list (list Z)) (doc : document) :
  let v := components query_embedding in
  let tr1 := (tr ++ [ENewChat chat_model])%list in
  let tr2 := (tr1 ++ [EEmbedQuery emb question])%list in
  let tr3 := (tr2 ++ [EIndexSearch index [v] 1])%list in
  let tr4 := (tr3 ++ [EDocstoreSearch docstore doc_id])%list in
  let qa_chain :=
    [SPromptTemplate ["history"; "context"; "question"] faiss_template;
     SChat chat; SStrOutputParser] in
  let input :=
    InDict [("history", rendered_history W chat_history);
            ("context", page_content doc); ("question", question)] in
  new_chat W tr chat_model = Ret chat ->
  embed_query W tr1 emb question = Ret query_embedding ->
  index_search W tr2 index [v] 1 = Ret (D', (doc_id :: row) :: rows) ->
  docstore_search W tr3 docstore doc_id = Ret doc ->
  inference_faiss W chat_model question (Some emb) (Some index)
    (Some docstore) chat_history tr
  = match chain_invoke W tr4 qa_chain input with
    | Ret answer =>
        (Ret answer, (tr4 ++ [EChainInvoke qa_chain input; EPrint answer])%list)
    | Raise e => (Raise e, (tr4 ++ [EChainInvoke qa_chain input])%list)
    end.
Proof.
  intros v tr1 tr2 tr3 tr4 qa_chain input Hchat Hembed Hsearch Hdoc.
  subst v tr1 tr2 tr3 tr4 qa_chain input.
  unfold inference_faiss, ChatTogether, invoke.
  rewrite join_lines_rendered.
  unfold bind at 1. unfold call at 1. rewrite Hchat.
  unfold bind at 1. unfold call at 1. rewrite Hembed.
  unfold bind at 1. unfold attr at 1, ret at 1.
  unfold bind at 1. unfold call at 1. rewrite Hsearch.
  unfold bind at 1. unfold lift at 1, first_of_first.
  unfold bind at 1. unfold attr at 1, ret at 1.
  unfold bind at 1. unfold call at 1. rewrite Hdoc.
  unfold bind, call, print, ret.
  destruct (chain_invoke W _ _ _); [now rewrite <- app_assoc | reflexivity].
Qed.

Lemma comprehension_getitem {A} (proj : A -> Py.dict) (key : string)
    (xs : list A) :
  comprehension (fun x => getitem (proj x) key) xs
  = if forallb (has_key key) (map proj xs)
    then Ret (texts_of key (map proj xs))
    else Raise (KeyError key).
Proof.
  induction xs as [| x xs IH]; [reflexivity |].
  cbn [comprehension map forallb texts_of]. unfold getitem at 1, has_key at 1.
  destruct (Py.get (proj x) key) as [v |]; [| reflexivity].
  rewrite IH. cbn [andb Py.str_of].
  destruct (forallb _ _); reflexivity.
Qed.

Lemma qdrant_steps
    (W : World) (chat_model question : string) (emb client : handle)
    (chat_history : list message) (tr : trace)
    (query_embedding : embedding) (search_results : list scored_point) :
  let text := question_with_history W chat_history question in
  let v := components query_embedding in
  let tr1 := (tr ++ [EEmbedQuery emb text])%list in
  let tr2 := (tr1 ++ [EClientSearch client "text_vectors" v 2])%list in
  let payloads := map payload search_results in
  let prompt :=
    qdrant_prompt (Py.join Py.nl (texts_of "page_content" payloads)) text in
  embed_query W tr emb text = Ret query_embedding ->
  client_search W tr1 client "text_vectors" v 2 = Ret search_results ->
  inference_qdrant W chat_model question (Some emb) (Some client)
    chat_history tr
  = match query_embedding with
    | PyList _ =>
        (Raise (AttributeError "'list' object has no attribute 'tolist'"),
         tr1)
    | NdArray _ =>
        if forallb (has_key "page_content") payloads then
          match new_chat W tr2 chat_model with
          | Raise e => (Raise e, (tr2 ++ [ENewChat chat_model])%list)
          | Ret chat =>
              match
                predict W (tr2 ++ [ENewChat chat_model])%list chat prompt
              with
              | Raise e =>
                  (Raise e,
                   (tr2 ++ [ENewChat chat_model; EPredict chat prompt])%list)
              | Ret response =>
                  (Ret response,
                   (tr2 ++ [ENewChat chat_model; EPredict chat prompt;
                            EPrint response])%list)
              end
          end
        else (Raise (KeyError "page_content"), tr2)
    end.
Proof.
  intros text v tr1 tr2 payloads prompt Hembed Hsearch.
  subst text v tr1 tr2 payloads prompt.
  unfold inference_qdrant, ChatTogether. cbv zeta.
  rewrite question_with_history_eq.
  unfold bind at 1. unfold call at 1. rewrite Hembed.
  unfold bind at 1. unfold attr at 1, ret at 1.
  unfold bind at 1. unfold lift at 1.
  destruct query_embedding as [v | v]; cbn [tolist components] in *;
    [reflexivity |].
  unfold bind at 1. unfold call at 1. rewrite Hsearch.
  unfold bind at 1. unfold lift at 1. rewrite comprehension_getitem.
  destruct (forallb _ _); [| reflexivity].
  unfold bind, call, print, ret.
  destruct (new_chat W _ chat_model) as [chat | e]; [| reflexivity].
  destruct (predict W _ chat _) as [response | e];
    repeat rewrite <- app_assoc; reflexivity.
Qed.

Lemma pinecone_steps
    (W : World) (chat_model question : string) (emb pinecone_index : handle)
    (chat_history : list message) (tr : trace)
    (query_embedding : embedding) (search_results : query_response) :
  let v := components query_embedding in
  let tr1 := (tr ++ [EEmbedQuery emb question])%list in
  let tr2 := (tr1 ++ [EPineconeQuery pinecone_index v 2 true])%list in
  let metadatas := map metadata (matches search_results) in
  let prompt :=
    pinecone_prompt (rendered_history W chat_history)
      (Py.join Py.nl (texts_of "text" metadatas)) question in
  embed_query W tr emb question = Ret query_embedding ->
  pinecone_query W tr1 pinecone_index v 2 true = Ret search_results ->
  inference_pinecone W chat_model question (Some emb) (Some pinecone_index)
    chat_history tr
  = match query_embedding with
    | PyList _ =>
        (Raise (AttributeError "'list' object has no attribute 'tolist'"),
         tr1)
    | NdArray _ =>
        if forallb (has_key "text") metadatas then
          match new_chat W tr2 chat_model with
          | Raise e => (Raise e, (tr2 ++ [ENewChat chat_model])%list)
          | Ret chat =>
              match
                predict W (tr2 ++ [ENewChat chat_model])%list chat prompt
              with
              | Raise e =>
                  (Raise e,
                   (tr2 ++ [ENewChat chat_model; EPredict chat prompt])%list)
              | Ret response =>
                  (Ret response,
                   (tr2 ++ [ENewChat chat_model; EPredict chat prompt;
                            EPrint response])%list)
              end
          end
        else (Raise (KeyError "text"), tr2)
    end.
Proof.
  intros v tr1 tr2 metadatas prompt Hembed Hquery.
  subst v tr1 tr2 metadatas prompt.
  unfold inference_pinecone, ChatTogether. cbv zeta.
  rewrite join_lines_rendered.
  unfold bind at 1. unfold call at 1. rewrite Hembed.
  unfold bind at 1. unfold attr at 1, ret at 1.
  unfold bind at 1. unfold lift at 1.
  destruct query_embedding as [v | v]; cbn [tolist components] in *;
    [reflexivity |].
  unfold bind at 1. unfold call at 1. rewrite Hquery.
  unfold bind at 1. unfold lift at 1. rewrite comprehension_getitem.
  destruct (forallb _ _); [| reflexivity].
  unfold bind, call, print, ret.
  destruct (new_chat W _ chat_model) as [chat | e]; [| reflexivity].
  destruct (predict W _ chat _) as [response | e];
    repeat rewrite <- app_assoc; reflexivity.
Qed.

(** ** Retrieval counts *)

(** C7. The retrieval count reaches the backend client as written in the
    adapter, on every retrieval call.  Every retrieval call of the
    similarity-index adapter is an index search with k = 1, of the Qdrant
    adapter a client search with limit = 2, of the Pinecone adapter an
    index query with top_k = 2, and so every retrieval call of a
    dispatcher run carries the count of its backend.  And the call is
    made: once the chat model is constructed and the question embedded,
    the similarity-index adapter searches its index with the embedded
    vector and k = 1; once the text is embedded into an array, the Qdrant
    adapter searches its client with that vector and limit = 2, and the
    Pinecone adapter queries its index with that vector and top_k = 2;
    the dispatcher runs these adapters on their backend names. *)
Theorem retrieval_count_passed_unchanged
    (W : World) (vectordb_name chat_model question : string)
    (retriever emb index docstore pinecone_index vs : option handle)
    (chat_history : list message)
    (m ix client pc chat : handle) (query_embedding : embedding) (v : vec)
    (tr : trace) :
  emits (retrieves IndexSearch 1)
    (inference_faiss W chat_model question emb index docstore chat_history)
  /\ emits (retrieves ClientSearch 2)
       (inference_qdrant W chat_model question emb vs chat_history)
  /\ emits (retrieves PineconeQuery 2)
       (inference_pinecone W chat_model question emb pinecone_index
          chat_history)
  /\ emits retrieval_count_ok
       (inference W vectordb_name chat_model question retriever emb index
          docstore pinecone_index vs chat_history)
  /\ (new_chat W tr chat_model = Ret chat ->
      embed_query W (tr ++ [ENewChat chat_model])%list m question
      = Ret query_embedding ->
      In (EIndexSearch ix [components query_embedding] 1)
        (snd (inference_faiss W chat_model question (Some m) (Some ix)
                docstore chat_history tr)))
  /\ (embed_query W tr m (question_with_history W chat_history question)
      = Ret (NdArray v) ->
      In (EClientSearch client "text_vectors" v 2)
        (snd (inference_qdrant W chat_model question (Some m) (Some client)
                chat_history tr)))
  /\ (embed_query W tr m question = Ret (NdArray v) ->
      In (EPineconeQuery pc v 2 true)
        (snd (inference_pinecone W chat_model question (Some m) (Some pc)
                chat_history tr)))
  /\ inference W "FAISS" chat_model question retriever (Some m) index
       docstore pinecone_index vs chat_history tr
     = (r <- inference_faiss W chat_model question (Some m) index docstore
               chat_history ;;
        ret (Py.VStr r)) tr
  /\ inference W "Qdrant" chat_model question retriever (Some m) index
       docstore pinecone_index vs chat_history tr
     = (r <- inference_qdrant W chat_model question (Some m) vs
               chat_history ;;
        ret (Py.VStr r)) tr
  /\ inference W "Pinecone" chat_model question retriever (Some m) index
       docstore pinecone_index vs chat_history tr
     = (r <- inference_pinecone W chat_model question (Some m)
               pinecone_index chat_history ;;
        ret (Py.VStr r)) tr.
Proof.
  split; [| split; [| split; [| split; [| split; [| split; [| split]]]]]].
  - unfold inference_faiss, ChatTogether, invoke.
    emits_walk; cbn; auto.
  - unfold inference_qdrant, ChatTogether.
    emits_walk; cbn; auto.
  - unfold inference_pinecone, ChatTogether.
    emits_walk; cbn; auto.
  - unfold inference, inference_chroma, inference_faiss, inference_qdrant,
      inference_pinecone, inference_weaviate, OpenAIEmbeddings, ChatTogether,
      invoke.
    emits_walk; cbn; auto.
  - intros Hchat Hembed.
    unfold inference_faiss, ChatTogether, invoke.
    unfold bind at 1. unfold call at 1. rewrite Hchat.
    unfold bind at 1. unfold call at 1. rewrite Hembed.
    unfold bind at 1. unfold attr at 1, ret at 1.
    apply call_recorded. intro. emits_walk; exact I.
  - intros Hembed.
    unfold inference_qdrant, ChatTogether. cbv zeta.
    rewrite question_with_history_eq.
    unfold bind at 1. unfold call at 1. rewrite Hembed.
    unfold bind at 1. unfold attr at 1, ret at 1.
    unfold bind at 1. unfold lift at 1. cbn [tolist].
    apply call_recorded. intro. emits_walk; exact I.
  - intros Hembed.
    unfold inference_pinecone, ChatTogether. cbv zeta.
    unfold bind at 1. unfold call at 1. rewrite Hembed.
    unfold bind at 1. unfold attr at 1, ret at 1.
    unfold bind at 1. unfold lift at 1. cbn [tolist].
    apply call_recorded. intro. emits_walk; exact I.
  - repeat split.
Qed.


Lemma retrieval_count_passed_unchanged_witness :
  In (EIndexSearch 10%nat [[3; 1; 4]] 1)
    (snd (inference_faiss W_stub "model" "What is APR?" (Some 9%nat)
            (Some 10%nat) (Some 11%nat) two_turns []))
  /\ In (EClientSearch 6%nat "text_vectors" [3; 1; 4] 2)
       (snd (inference_qdrant W_stub "model" "What is APR?" (Some 9%nat)
               (Some 6%nat) two_turns []))
  /\ In (EPineconeQuery 5%nat [3; 1; 4] 2 true)
       (snd (inference_pinecone W_stub "model" "What is APR?" (Some 9%nat)
               (Some 5%nat) two_turns [])).
Proof.
  destruct (retrieval_count_passed_unchanged W_stub "FAISS" "model"
              "What is APR?" None None None (Some 11%nat) None None two_turns
              9%nat 10%nat 6%nat 5%nat 2%nat (NdArray [3; 1; 4]) [3; 1; 4] [])
    as (_ & _ & _ & _ & Hfaiss & Hqdrant & Hpinecone & _).
  split; [apply Hfaiss; reflexivity |].
  split; [apply Hqdrant; reflexivity | apply Hpinecone; reflexivity].
Defined.

(** ** History rendering in the adapters *)

Ltac history_slot :=
  cbv beta iota delta [carries_history];
  rewrite ?join_lines_rendered;
  first [ exact I
        | reflexivity
        | eexists; first [ left; reflexivity | right; reflexivity ] ].

(** The event is among those recorded after [tr]. *)
Ltac recorded := cbn [snd]; apply in_or_app; right; cbn [In]; auto 6.

(** C6. The history text every adapter builds is the newline-joined
    sequence of "<Role>: <content>" lines, in turn order, with the role
    capitalized; with the capitalization of ASCII texts, the turns user
    "hi", assistant "hello" render to "User: hi\nAssistant: hello".
    Whatever the backend, every text handed to a chain or to the chat
    model carries exactly that rendering of the turn sequence (a function
    of the turns alone: it takes neither the collaborators' answers nor
    the trace).  And the text is handed over: in each of the five
    adapters, once the calls before it have returned, the chain or the
    chat model is invoked on an input that holds the rendering; the
    dispatcher runs each adapter on its backend name. *)
Theorem history_rendered_in_turn_order
    (W : World) (vectordb_name chat_model question : string)
    (retriever emb index docstore pinecone_index vs : option handle)
    (chat_history : list message)
    (m ix ds client pc store chat chain_retriever : handle)
    (query_embedding : embedding) (v : vec) (D' : list (list Z))
    (doc_id : Z) (row : list Z) (rows : list (list Z)) (doc : document)
    (search_results : list scored_point) (matched : query_response)
    (tr : trace) :
  let history := rendered_history W chat_history in
  let text := question_with_history W chat_history question in
  Py.join Py.nl
    (map (fun msg =>
            capitalize W (role msg) ++ ": " ++ Py.str (content msg))
         chat_history)
  = history
  /\ (ascii_capitalize W ->
      rendered_history W two_turns
      = "User: hi" ++ Py.nl ++ "Assistant: hello")
  /\ emits (carries_history W chat_history question)
       (inference_chroma W chat_model question retriever chat_history)
  /\ emits (carries_history W chat_history question)
       (inference_faiss W chat_model question emb index docstore chat_history)
  /\ emits (carries_history W chat_history question)
       (inference_qdrant W chat_model question emb vs chat_history)
  /\ emits (carries_history W chat_history question)
       (inference_pinecone W chat_model question emb pinecone_index
          chat_history)
  /\ emits (carries_history W chat_history question)
       (inference_weaviate W chat_model question vs chat_history)
  /\ emits (carries_history W chat_history question)
       (inference W vectordb_name chat_model question retriever emb index
          docstore pinecone_index vs chat_history)
  /\ (new_chat W tr chat_model = Ret chat ->
      In (EChainInvoke
            [SRetriever store;
             SPromptTemplate ["context"; "question"] chroma_template;
             SChat chat; SStrOutputParser]
            (InText text))
        (snd (inference_chroma W chat_model question (Some store)
                chat_history tr)))
  /\ (new_chat W tr chat_model = Ret chat ->
      embed_query W (tr ++ [ENewChat chat_model])%list m question
      = Ret query_embedding ->
      index_search W
        ((tr ++ [ENewChat chat_model]) ++ [EEmbedQuery m question])%list ix
        [components query_embedding] 1
      = Ret (D', (doc_id :: row) :: rows) ->
      docstore_search W
        (((tr ++ [ENewChat chat_model]) ++ [EEmbedQuery m question])
           ++ [EIndexSearch ix [components query_embedding] 1])%list
        ds doc_id
      = Ret doc ->
      In (EChainInvoke
            [SPromptTemplate ["history"; "context"; "question"]
               faiss_template;
             SChat chat; SStrOutputParser]
            (InDict [("history", history); ("context", page_content doc);
                     ("question", question)]))
        (snd (inference_faiss W chat_model question (Some m) (Some ix)
                (Some ds) chat_history tr)))
  /\ (embed_query W tr m text = Ret (NdArray v) ->
      client_search W (tr ++ [EEmbedQuery m text])%list client
        "text_vectors" v 2
      = Ret search_results ->
      forallb (has_key "page_content") (map payload search_results) = true ->
      new_chat W
        ((tr ++ [EEmbedQuery m text])
           ++ [EClientSearch client "text_vectors" v 2])%list
        chat_model
      = Ret chat ->
      In (EPredict chat
            (qdrant_prompt
               (Py.join Py.nl
                  (texts_of "page_content" (map payload search_results)))
               text))
        (snd (inference_qdrant W chat_model question (Some m) (Some client)
                chat_history tr)))
  /\ (embed_query W tr m question = Ret (NdArray v) ->
      pinecone_query W (tr ++ [EEmbedQuery m question])%list pc v 2 true
      = Ret matched ->
      forallb (has_key "text") (map metadata (matches matched)) = true ->
      new_chat W
        ((tr ++ [EEmbedQuery m question]) ++ [EPineconeQuery pc v 2 true])%list
        chat_model
      = Ret chat ->
      In (EPredict chat
            (pinecone_prompt history
               (Py.join Py.nl
                  (texts_of "text" (map metadata (matches matched))))
               question))
        (snd (inference_pinecone W chat_model question (Some m) (Some pc)
                chat_history tr)))
  /\ (new_chat W tr chat_model = Ret chat ->
      as_retriever W (tr ++ [ENewChat chat_model])%list store
      = Ret chain_retriever ->
      In (EChainInvoke
            [SContextQuestion chain_retriever;
             SChatPromptTemplate weaviate_template; SChat chat;
             SStrOutputParser]
            (InText text))
        (snd (inference_weaviate W chat_model question (Some store)
                chat_history tr)))
  /\ inference W "Chroma" chat_model question retriever (Some m) index
       docstore pinecone_index vs chat_history tr
     = (r <- inference_chroma W chat_model question retriever chat_history ;;
        ret (Py.VStr r)) tr
  /\ inference W "FAISS" chat_model question retriever (Some m) index
       docstore pinecone_index vs chat_history tr
     = (r <- inference_faiss W chat_model question (Some m) index docstore
               chat_history ;;
        ret (Py.VStr r)) tr
  /\ inference W "Qdrant" chat_model question retriever (Some m) index
       docstore pinecone_index vs chat_history tr
     = (r <- inference_qdrant W chat_model question (Some m) vs
               chat_history ;;
        ret (Py.VStr r)) tr
  /\ inference W "Pinecone" chat_model question retriever (Some m) index
       docstore pinecone_index vs chat_history tr
     = (r <- inference_pinecone W chat_model question (Some m)
               pinecone_index chat_history ;;
        ret (Py.VStr r)) tr
  /\ inference W "Weaviate" chat_model question retriever (Some m) index
       docstore pinecone_index vs chat_history tr
     = (r <- inference_weaviate W chat_model question vs chat_history ;;
        ret (Py.VStr r)) tr.
Proof.
  intros history text. subst history text.
  split; [apply join_lines_rendered |].
  split.
  { intros Hascii. unfold two_turns.
    cbn [rendered_history]. unfold history_line. cbn [role content Py.str].
    rewrite !Hascii by reflexivity. reflexivity. }
  do 6 (split;
        [ unfold inference, inference_chroma, inference_faiss,
            inference_qdrant, inference_pinecone, inference_weaviate,
            OpenAIEmbeddings, ChatTogether, invoke;
          emits_walk; history_slot |]).
  split.
  { intros Hchat.
    rewrite (chroma_steps W chat_model question store chat_history tr chat
               Hchat).
    cbv zeta. destruct (chain_invoke W _ _ _); recorded. }
  split.
  { intros Hchat Hembed Hsearch Hdoc.
    rewrite (faiss_steps W chat_model question m ix ds chat_history tr chat
               query_embedding D' doc_id row rows doc Hchat Hembed Hsearch
               Hdoc).
    cbv zeta. destruct (chain_invoke W _ _ _); recorded. }
  split.
  { intros Hembed Hsearch Hkeys Hchat.
    rewrite (qdrant_steps W chat_model question m client chat_history tr
               (NdArray v) search_results Hembed Hsearch).
    cbv zeta. cbn [components]. rewrite Hkeys, Hchat.
    destruct (predict W _ _ _); recorded. }
  split.
  { intros Hembed Hquery Hkeys Hchat.
    rewrite (pinecone_steps W chat_model question m pc chat_history tr
               (NdArray v) matched Hembed Hquery).
    cbv zeta. cbn [components]. rewrite Hkeys, Hchat.
    destruct (predict W _ _ _); recorded. }
  split.
  { intros Hchat Hretriever.
    rewrite (weaviate_steps W chat_model question store chat_history tr chat
               chain_retriever Hchat Hretriever).
    cbv zeta. destruct (chain_invoke W _ _ _); recorded. }
  repeat split.
Qed.


Lemma history_rendered_in_turn_order_witness :
  rendered_history W_stub two_turns = "User: hi" ++ Py.nl ++ "Assistant: hello"
  /\ In (EChainInvoke
           [SRetriever 7%nat;
            SPromptTemplate ["context"; "question"] chroma_template;
            SChat 2%nat; SStrOutputParser]
           (InText (question_with_history W_stub two_turns "What is APR?")))
       (snd (inference_chroma W_stub "model" "What is APR?" (Some 7%nat)
               two_turns []))
  /\ In (EChainInvoke
           [SPromptTemplate ["history"; "context"; "question"]
              faiss_template;
            SChat 2%nat; SStrOutputParser]
           (InDict
              [("history", "User: hi" ++ Py.nl ++ "Assistant: hello");
               ("context", "Compound interest is interest on interest.");
               ("question", "What is APR?")]))
       (snd (inference_faiss W_stub "model" "What is APR?" (Some 9%nat)
               (Some 10%nat) (Some 11%nat) two_turns []))
  /\ In (EPredict 2%nat
           (qdrant_prompt ("first" ++ Py.nl ++ "second")
              (question_with_history W_stub two_turns "What is APR?")))
       (snd (inference_qdrant W_stub "model" "What is APR?" (Some 9%nat)
               (Some 6%nat) two_turns []))
  /\ In (EPredict 2%nat
           (pinecone_prompt ("User: hi" ++ Py.nl ++ "Assistant: hello")
              ("first" ++ Py.nl ++ "second") "What is APR?"))
       (snd (inference_pinecone W_stub "model" "What is APR?" (Some 9%nat)
               (Some 5%nat) two_turns []))
  /\ In (EChainInvoke
           [SContextQuestion 4%nat; SChatPromptTemplate weaviate_template;
            SChat 2%nat; SStrOutputParser]
           (InText (question_with_history W_stub two_turns "What is APR?")))
       (snd (inference_weaviate W_stub "model" "What is APR?" (Some 7%nat)
               two_turns [])).
Proof.
  destruct (history_rendered_in_turn_order W_stub "FAISS" "model"
              "What is APR?" None None None None None None two_turns
              9%nat 10%nat 11%nat 6%nat 5%nat 7%nat 2%nat 4%nat
              (NdArray [3; 1; 4]) [3; 1; 4] [[0]] 7 [] []
              {| page_content :=
                   "Compound interest is interest on interest." |}
              [ {| payload := [("page_content", "first")] |};
                {| payload := [("page_content", "second")] |} ]
              {| matches := [ {| metadata := [("text", "first")] |};
                              {| metadata := [("text", "second")] |} ] |}
              [])
    as (_ & Hexample & _ & _ & _ & _ & _ & _ & Hchroma & Hfaiss & Hqdrant
        & Hpinecone & Hweaviate & _).
  split; [apply Hexample; intros s _; reflexivity |].
  split; [apply Hchroma; reflexivity |].
  split; [apply Hfaiss; reflexivity |].
  split; [apply Hqdrant; reflexivity |].
  split; [apply Hpinecone; reflexivity | apply Hweaviate; reflexivity].
Defined.

(** ** The embedding-model guard of the adapters *)

(** C8. Each adapter that needs embeddings, given [None] as embedding
    model, raises [ValueError("Embedding model is not initialized.")]
    and leaves the trace as it was: no embedding call, no search call and
    no other external call has been issued. *)
Theorem embedding_guard_fails_fast
    (W : World) (chat_model question : string)
    (index docstore client pinecone_index : option handle)
    (chat_history : list message) (tr : trace) :
  inference_faiss W chat_model question None index docstore chat_history tr
  = (Raise (ValueError "Embedding model is not initialized."), tr)
  /\ inference_qdrant W chat_model question None client chat_history tr
     = (Raise (ValueError "Embedding model is not initialized."), tr)
  /\ inference_pinecone W chat_model question None pinecone_index
       chat_history tr
     = (Raise (ValueError "Embedding model is not initialized."), tr)
  /\ str_exn (ValueError "Embedding model is not initialized.")
     = "Embedding model is not initialized.".
Proof. repeat split. Qed.

(** ** Reset *)

(** C9. [reset_chat] empties the turn history and leaves every other
    key of the session as it was; in particular a session that can chat
    can still chat after a reset. *)
Theorem reset_chat_only_empties_history (s : Main.Session) (tr : trace) :
  let '(rep, s', _) := Main.reset_chat s tr in
  rep = Main.Json "message" (Py.VStr "Chat history reset.")
  /\ Main.messages s' = []
  /\ Main.preprocessing_done s' = Main.preprocessing_done s
  /\ Main.selected_vectordb s' = Main.selected_vectordb s
  /\ Main.selected_chat_model s' = Main.selected_chat_model s
  /\ Main.retriever s' = Main.retriever s
  /\ Main.index s' = Main.index s
  /\ Main.docstore s' = Main.docstore s
  /\ Main.pinecone_index s' = Main.pinecone_index s
  /\ Main.vs s' = Main.vs s
  /\ Main.embedding_model_global s' = Main.embedding_model_global s
  /\ Main.ready_to_chat s' = Main.ready_to_chat s.
Proof. destruct s. cbn. repeat split. Qed.

(** ** The dispatcher on a name outside the closed set *)

Lemma unsupported_names (name : string) :
  supported name = false ->
  String.eqb name "Chroma" = false /\ String.eqb name "FAISS" = false
  /\ String.eqb name "Qdrant" = false /\ String.eqb name "Pinecone" = false
  /\ String.eqb name "Weaviate" = false.
Proof.
  unfold supported. intros H.
  repeat (apply orb_false_iff in H; destruct H as [H ?]). auto.
Qed.

(** C1, as the claim states it, fails: on the name "Milvus" the
    dispatcher returns [None] and raises nothing. *)
Lemma unsupported_backend_returns_none :
  supported "Milvus" = false
  /\ inference W_stub "Milvus" "model" "question" None (Some 1%nat) None None
       None None [] []
     = (Ret Py.VNone, [EPrint "Invalid Choice"])
  /\ is_raise
       (fst (inference W_stub "Milvus" "model" "question" None (Some 1%nat)
               None None None None [] []))
     = false.
Proof. repeat split. Qed.

(** C1, amended. On a name outside the closed set the dispatcher runs
    no adapter: it prints "Invalid Choice" and returns [None] without
    raising.  When the embedding model passed in is [None] the model is
    constructed first, and only a failure of that construction is
    raised. *)
Theorem unsupported_backend_prints_and_returns_none
    (W : World) (vectordb_name chat_model question : string)
    (retriever emb index docstore pinecone_index vs : option handle)
    (chat_history : list message) (tr : trace) :
  supported vectordb_name = false ->
  inference W vectordb_name chat_model question retriever emb index docstore
    pinecone_index vs chat_history tr
  = match emb with
    | Some _ => (Ret Py.VNone, (tr ++ [EPrint "Invalid Choice"])%list)
    | None =>
        match new_embeddings W tr with
        | Ret _ =>
            (Ret Py.VNone,
             (tr ++ [ENewEmbeddings; EPrint "Invalid Choice"])%list)
        | Raise e => (Raise e, (tr ++ [ENewEmbeddings])%list)
        end
    end.
Proof.
  intros H. apply unsupported_names in H.
  destruct H as (Hc & Hf & Hq & Hp & Hw).
  unfold inference. destruct emb as [m |].
  - unfold bind at 1. cbn [ret].
    rewrite Hc, Hf, Hq, Hp, Hw. reflexivity.
  - unfold bind at 1. unfold OpenAIEmbeddings, bind at 1, call.
    destruct (new_embeddings W tr) as [m | e]; [| reflexivity].
    cbn [ret]. rewrite Hc, Hf, Hq, Hp, Hw.
    unfold bind, print, ret. now rewrite <- app_assoc.
Qed.

Lemma unsupported_backend_prints_and_returns_none_witness :
  supported "Milvus" = false
  /\ inference W_stub "Milvus" "model" "question" None None None None None
       None two_turns []
     = (Ret Py.VNone, [ENewEmbeddings; EPrint "Invalid Choice"]).
Proof.
  split; [reflexivity |].
  exact (unsupported_backend_prints_and_returns_none W_stub "Milvus" "model"
           "question" None None None None None None two_turns []
           eq_refl).
Defined.

(** ** What the search adapters embed *)

(** C2, as the claim states it, fails for Pinecone: with a non-empty
    history the text embedded is the bare question, which differs from
    the history-and-question text. *)
Lemma pinecone_embeds_bare_question :
  hd_error
    (snd (inference_pinecone W_stub "model" "What is APR?" (Some 1%nat)
            (Some 5%nat) two_turns []))
  = Some (EEmbedQuery 1%nat "What is APR?")
  /\ "What is APR?" <> question_with_history W_stub two_turns "What is APR?".
Proof. split; [reflexivity | discriminate]. Qed.

(** C2, amended. With an embedding model at hand, the Qdrant adapter
    makes exactly one embedding call, its first external call, on the
    history-and-question text; the Pinecone adapter makes exactly one
    embedding call, its first external call, on the question alone. *)
Theorem search_adapters_query_text
    (W : World) (chat_model question : string) (emb : handle)
    (client pinecone_index : option handle) (chat_history : list message)
    (tr : trace) :
  (exists rest,
      snd (inference_qdrant W chat_model question (Some emb) client
             chat_history tr)
      = (tr ++ EEmbedQuery emb (question_with_history W chat_history question)
            :: rest)%list
      /\ Forall (fun e => is_embed_query e = false) rest)
  /\ (exists rest,
         snd (inference_pinecone W chat_model question (Some emb)
                pinecone_index chat_history tr)
         = (tr ++ EEmbedQuery emb question :: rest)%list
         /\ Forall (fun e => is_embed_query e = false) rest).
Proof.
  split.
  - unfold inference_qdrant, ChatTogether. cbv zeta.
    first_call (fun e => is_embed_query e = false); [reflexivity .. |].
    exists rest. rewrite <- question_with_history_eq. auto.
  - unfold inference_pinecone, ChatTogether. cbv zeta.
    first_call (fun e => is_embed_query e = false); [reflexivity .. |].
    exists rest. auto.
Qed.

(** ** Lazy construction of the embedding model *)

Lemma inference_constructs_first
    (W : World) (vectordb_name chat_model question : string)
    (retriever index docstore pinecone_index vs : option handle)
    (chat_history : list message) (tr : trace) :
  inference W vectordb_name chat_model question retriever None index docstore
    pinecone_index vs chat_history tr
  = match new_embeddings W tr with
    | Ret m =>
        inference W vectordb_name chat_model question retriever (Some m)
          index docstore pinecone_index vs chat_history
          (tr ++ [ENewEmbeddings])%list
    | Raise e => (Raise e, (tr ++ [ENewEmbeddings])%list)
    end.
Proof.
  unfold inference, OpenAIEmbeddings, call.
  unfold bind at 1 2. unfold bind at 3.
  destruct (new_embeddings W tr); reflexivity.
Qed.

(** With a model at hand the dispatcher constructs none, and every
    embedding call goes to that model. *)
Lemma inference_uses_given_model
    (W : World) (vectordb_name chat_model question : string)
    (retriever index docstore pinecone_index vs : option handle) (m : handle)
    (chat_history : list message) :
  emits (fun e => is_new_embeddings e = false /\ embeds_with (Some m) e)
    (inference W vectordb_name chat_model question retriever (Some m) index
       docstore pinecone_index vs chat_history).
Proof.
  unfold inference, inference_chroma, inference_faiss, inference_qdrant,
    inference_pinecone, inference_weaviate, ChatTogether, invoke.
  emits_walk; split; reflexivity.
Qed.

Lemma chat_keeps_embedding_reference
    (W : World) (prompt : string) (s : Main.Session) (tr : trace) :
  let '(_, s', _) := Main.chat_with_bot W prompt s tr in
  Main.embedding_model_global s' = Main.embedding_model_global s.
Proof.
  unfold Main.chat_with_bot.
  destruct (negb (Main.preprocessing_done s)); [reflexivity |].
  destruct (_ || _); [reflexivity |].
  destruct (inference _ _ _ _ _ _ _ _ _ _ _ _) as [[response | e] tr'];
    reflexivity.
Qed.

(** C3, as the claim states it, fails: the model constructed during the
    first chat call is not kept, and the second chat call of the same
    session constructs a model again. *)
Lemma embedding_model_constructed_again :
  let '(r1, s1, tr1) :=
    Main.chat_with_bot W_stub "What is compound interest?" faiss_session [] in
  let '(r2, s2, tr2) :=
    Main.chat_with_bot W_stub "And simple interest?" s1 tr1 in
  r1 = Main.Json "response"
         (Py.VStr "Compound interest is interest on interest.")
  /\ Main.embedding_model_global s1 = None
  /\ constructions tr1 = 1%nat
  /\ constructions tr2 = 2%nat.
Proof. vm_compute. repeat split. Qed.

(** C3, amended. Called with [None] as embedding model, the dispatcher
    constructs a model as its first external call, before any adapter
    runs, and constructs no other in that call; when the construction
    returns, the adapter runs with the constructed model and every
    embedding call goes to it; when it raises, nothing else runs.  The
    constructed model lives in that call only: a chat call leaves the
    session's embedding-model reference as it was. *)
Theorem embedding_model_constructed_per_call
    (W : World) (vectordb_name chat_model question prompt : string)
    (retriever index docstore pinecone_index vs : option handle)
    (chat_history : list message) (s : Main.Session) (tr : trace) :
  (exists rest,
      snd (inference W vectordb_name chat_model question retriever None index
             docstore pinecone_index vs chat_history tr)
      = (tr ++ ENewEmbeddings :: rest)%list
      /\ Forall (fun e => is_new_embeddings e = false) rest
      /\ match new_embeddings W tr with
         | Ret m =>
             inference W vectordb_name chat_model question retriever None
               index docstore pinecone_index vs chat_history tr
             = inference W vectordb_name chat_model question retriever
                 (Some m) index docstore pinecone_index vs chat_history
                 (tr ++ [ENewEmbeddings])%list
             /\ Forall (embeds_with (Some m)) rest
         | Raise e =>
             inference W vectordb_name chat_model question retriever None
               index docstore pinecone_index vs chat_history tr
             = (Raise e, (tr ++ [ENewEmbeddings])%list)
             /\ rest = []
         end)
  /\ (let '(_, s', _) := Main.chat_with_bot W prompt s tr in
      Main.embedding_model_global s' = Main.embedding_model_global s).
Proof.
  split; [| apply chat_keeps_embedding_reference].
  rewrite inference_constructs_first.
  destruct (new_embeddings W tr) as [m | e].
  - destruct (inference_uses_given_model W vectordb_name chat_model question
                retriever index docstore pinecone_index vs m chat_history
                (tr ++ [ENewEmbeddings])%list) as [out [E F]].
    exists out. rewrite E, <- app_assoc.
    apply Forall_and_inv in F. destruct F as [F1 F2]. auto.
  - exists []. auto.
Qed.

(** ** The handle of the Qdrant and Weaviate adapters *)

(** C10. The dispatcher hands its [vs] argument to the Qdrant adapter
    as client and to the Weaviate adapter as vector store: whatever the
    backend name, every client search and every retriever request of a
    dispatcher run goes to the object [vs]; and the Qdrant run does not
    depend on any other handle argument, so no separate Qdrant client can
    be supplied. *)
Theorem qdrant_and_weaviate_share_vs
    (W : World) (vectordb_name chat_model question : string)
    (retriever retriever' emb index index' docstore docstore' pinecone_index
       pinecone_index' vs : option handle)
    (m : handle) (chat_history : list message) (tr : trace) :
  emits (store_is vs)
    (inference W vectordb_name chat_model question retriever emb index
       docstore pinecone_index vs chat_history)
  /\ inference W "Qdrant" chat_model question retriever (Some m) index
       docstore pinecone_index vs chat_history tr
     = (r <- inference_qdrant W chat_model question (Some m) vs chat_history ;;
        ret (Py.VStr r)) tr
  /\ inference W "Weaviate" chat_model question retriever (Some m) index
       docstore pinecone_index vs chat_history tr
     = (r <- inference_weaviate W chat_model question vs chat_history ;;
        ret (Py.VStr r)) tr
  /\ inference W "Qdrant" chat_model question retriever emb index docstore
       pinecone_index vs chat_history tr
     = inference W "Qdrant" chat_model question retriever' emb index'
         docstore' pinecone_index' vs chat_history tr.
Proof.
  repeat split.
  unfold inference, inference_chroma, inference_faiss, inference_qdrant,
    inference_pinecone, inference_weaviate, OpenAIEmbeddings, ChatTogether,
    invoke.
  emits_walk; cbn; auto.
Qed.

(** ** The similarity-index adapter *)

(** C5. When the chat model is constructed, the question embedded, the
    index searched and the document store read without an exception, the
    similarity-index adapter has embedded the question itself, searched
    the index with that one vector and k = 1, taken the first id of the
    first row of the answer, asked the document store for that very id,
    and then invoked its chain with the text of the document found as
    context, unchanged. *)
Theorem faiss_context_is_the_looked_up_document
    (W : World) (chat_model question : string) (emb index docstore : handle)
    (chat_history : list message) (tr : trace)
    (chat : handle) (query_embedding : embedding) (D' : list (list Z))
    (doc_id : Z) (row : list Z) (rows : list (list Z)) (doc : document) :
  let v := components query_embedding in
  let tr1 := (tr ++ [ENewChat chat_model])%list in
  let tr2 := (tr1 ++ [EEmbedQuery emb question])%list in
  let tr3 := (tr2 ++ [EIndexSearch index [v] 1])%list in
  let tr4 := (tr3 ++ [EDocstoreSearch docstore doc_id])%list in
  let qa_chain :=
    [SPromptTemplate ["history"; "context"; "question"] faiss_template;
     SChat chat; SStrOutputParser] in
  let input :=
    InDict [("history", rendered_history W chat_history);
            ("context", page_content doc); ("question", question)] in
  new_chat W tr chat_model = Ret chat ->
  embed_query W tr1 emb question = Ret query_embedding ->
  index_search W tr2 index [v] 1 = Ret (D', (doc_id :: row) :: rows) ->
  docstore_search W tr3 docstore doc_id = Ret doc ->
  inference_faiss W chat_model question (Some emb) (Some index)
    (Some docstore) chat_history tr
  = match chain_invoke W tr4 qa_chain input with
    | Ret answer =>
        (Ret answer,
         (tr4 ++ [EChainInvoke qa_chain input])%list ++ [EPrint answer])%list
    | Raise e => (Raise e, (tr4 ++ [EChainInvoke qa_chain input])%list)
    end.
Proof.
  intros v tr1 tr2 tr3 tr4 qa_chain input Hchat Hembed Hsearch Hdoc.
  subst v tr1 tr2 tr3 tr4 qa_chain input.
  unfold inference_faiss, ChatTogether, invoke.
  rewrite join_lines_rendered.
  unfold bind at 1. unfold call at 1. rewrite Hchat.
  unfold bind at 1. unfold call at 1. rewrite Hembed.
  unfold bind at 1. unfold attr at 1, ret at 1.
  unfold bind at 1. unfold call at 1. rewrite Hsearch.
  unfold bind at 1. unfold lift at 1, first_of_first.
  unfold bind at 1. unfold attr at 1, ret at 1.
  unfold bind at 1. unfold call at 1. rewrite Hdoc.
  unfold bind, call, print, ret.
  destruct (chain_invoke W _ _ _); reflexivity.
Qed.

Lemma faiss_context_is_the_looked_up_document_witness :
  inference_faiss W_stub "model" "What is compound interest?" (Some 1%nat)
    (Some 10%nat) (Some 11%nat) two_turns []
  = (Ret "Compound interest is interest on interest.",
     [ ENewChat "model";
       EEmbedQuery 1%nat "What is compound interest?";
       EIndexSearch 10%nat [[3; 1; 4]] 1;
       EDocstoreSearch 11%nat 7;
       EChainInvoke
         [SPromptTemplate ["history"; "context"; "question"] faiss_template;
          SChat 2%nat; SStrOutputParser]
         (InDict
            [("history", "User: hi" ++ Py.nl ++ "Assistant: hello");
             ("context", "Compound interest is interest on interest.");
             ("question", "What is compound interest?")]);
       EPrint "Compound interest is interest on interest." ]).
Proof.
  exact (faiss_context_is_the_looked_up_document W_stub "model"
           "What is compound interest?" 1%nat 10%nat 11%nat two_turns []
           2%nat (PyList [3; 1; 4]) [[0]] 7 [] []
           {| page_content := "Compound interest is interest on interest." |}
           eq_refl eq_refl eq_refl eq_refl).
Defined.

(** ** Failures of a chat call *)

Lemma set_messages_same (s : Main.Session) :
  Main.set_messages s (Main.messages s) = s.
Proof. destruct s; reflexivity. Qed.

(** C4, as the claim states it, fails: with every collaborator
    unreachable the chat call is answered by an error, and the session
    it leaves holds one more turn than the session it started from. *)
Lemma failed_chat_keeps_user_turn :
  let '(rep, s', _) :=
    Main.chat_with_bot W_down "hi" (ready_session "FAISS") [] in
  rep = Main.HTTPException 500 "Inference Error: down"
  /\ Main.messages (ready_session "FAISS") = []
  /\ Main.messages s' = [ {| role := "user"; content := Py.VStr "hi" |} ]
  /\ s' <> ready_session "FAISS".
Proof. vm_compute. repeat split. discriminate. Qed.

(** C4, amended. Every failure of a chat call reaches the caller as an
    [HTTPException] with a non-empty detail text: status 400 when a guard
    fails, the session and the trace being then untouched, and status 500
    with detail "Inference Error: " followed by the text of the exception
    when the inference call raises.  A chat call writes no session key
    other than the turn history; after a failed inference the turn
    history is the one before the call followed by the user's turn. *)
Theorem chat_failures_are_reported
    (W : World) (prompt : string) (s : Main.Session) (tr : trace) :
  let user := {| role := "user"; content := Py.VStr prompt |} in
  let run :=
    inference W (Py.str_of (Main.selected_vectordb s))
      (Py.str_of (Main.selected_chat_model s)) prompt (Main.retriever s)
      (Main.embedding_model_global s) (Main.index s) (Main.docstore s)
      (Main.pinecone_index s) (Main.vs s) (Main.messages s ++ [user])%list
      tr in
  let '(rep, s', tr') := Main.chat_with_bot W prompt s tr in
  s' = Main.set_messages s (Main.messages s')
  /\ match rep with
     | Main.HTTPException status_code detail =>
         detail <> ""
         /\ ((status_code = 400 /\ Main.ready_to_chat s = false
              /\ s' = s /\ tr' = tr)
             \/ (status_code = 500 /\ Main.ready_to_chat s = true
                 /\ Main.messages s' = (Main.messages s ++ [user])%list
                 /\ exists e,
                      fst run = Raise e
                      /\ detail = "Inference Error: " ++ str_exn e))
     | Main.Json key response =>
         key = "response" /\ Main.ready_to_chat s = true
         /\ fst run = Ret response
         /\ Main.messages s'
            = (Main.messages s
                 ++ [user; {| role := "assistant"; content := response |}])%list
     end.
Proof.
  intros user run. subst run. unfold Main.chat_with_bot, Main.ready_to_chat.
  destruct (Main.preprocessing_done s); cbn [negb andb].
  2: { rewrite set_messages_same. split; [reflexivity |].
       split; [discriminate | left; auto]. }
  destruct (Py.truthy (Main.selected_vectordb s)); cbn [negb andb orb].
  2: { rewrite set_messages_same. split; [reflexivity |].
       split; [discriminate | left; auto]. }
  destruct (Py.truthy (Main.selected_chat_model s)); cbn [negb andb orb].
  2: { rewrite set_messages_same. split; [reflexivity |].
       split; [discriminate | left; auto]. }
  cbn [Main.retriever Main.embedding_model_global Main.index Main.docstore
       Main.pinecone_index Main.vs Main.selected_vectordb
       Main.selected_chat_model Main.messages Main.set_messages].
  fold user.
  destruct (inference _ _ _ _ _ _ _ _ _ _ _ _) as [[response | e] tr1].
  - split; [reflexivity |]. cbn [fst]. repeat split.
    cbn [Main.messages]. now rewrite <- app_assoc.
  - split; [reflexivity |]. split; [discriminate |].
    right. repeat split. exists e. auto.
Qed.

(** ** Every chat call of a session without a stored model constructs one *)

Lemma constructions_app (a b : trace) :
  constructions (a ++ b)%list = (constructions a + constructions b)%nat.
Proof. unfold constructions. now rewrite filter_app, length_app. Qed.

Lemma constructions_none (out : trace) :
  Forall (fun e => is_new_embeddings e = false) out ->
  constructions out = 0%nat.
Proof.
  induction 1 as [| e out He _ IH]; [reflexivity |].
  unfold constructions in *. cbn [filter]. now rewrite He.
Qed.

Lemma ready_to_chat_guards (s : Main.Session) :
  Main.ready_to_chat s = true ->
  Main.preprocessing_done s = true
  /\ Py.truthy (Main.selected_vectordb s) = true
  /\ Py.truthy (Main.selected_chat_model s) = true.
Proof.
  unfold Main.ready_to_chat. intros H.
  apply andb_true_iff in H. destruct H as [H H3].
  apply andb_true_iff in H. destruct H as [H1 H2]. auto.
Qed.

Lemma constructions_single (e : event) :
  constructions [e] = if is_new_embeddings e then 1%nat else 0%nat.
Proof. unfold constructions. cbn. now destruct (is_new_embeddings e). Qed.

Corollary chat_constructs_on_every_call
    (W : World) (prompt : string) (s : Main.Session) (tr : trace) :
  Main.ready_to_chat s = true ->
  Main.embedding_model_global s = None ->
  let '(_, s', tr') := Main.chat_with_bot W prompt s tr in
  constructions tr' = S (constructions tr)
  /\ Main.embedding_model_global s' = None
  /\ Main.ready_to_chat s' = true.
Proof.
  intros Hready Hnone.
  destruct (ready_to_chat_guards s Hready) as (Hp & Hv & Hc).
  unfold Main.chat_with_bot. rewrite Hp, Hv, Hc. cbn [negb orb].
  cbn [Main.retriever Main.embedding_model_global Main.index Main.docstore
       Main.pinecone_index Main.vs Main.selected_vectordb
       Main.selected_chat_model Main.messages Main.set_messages].
  rewrite Hnone, inference_constructs_first.
  destruct (new_embeddings W tr) as [m | e].
  - match goal with
    | |- context [inference ?W ?n ?c ?q ?r (Some m) ?i ?d ?p ?v ?h ?t] =>
        destruct (inference_uses_given_model W n c q r i d p v m h t)
          as [out [E F]];
        destruct (inference W n c q r (Some m) i d p v h t)
          as [[response | e] tr1]
    end;
      cbn [snd] in E; subst tr1;
      apply Forall_and_inv in F; destruct F as [F _];
      rewrite !constructions_app, (constructions_none out F),
        !constructions_single;
      unfold Main.ready_to_chat; cbn; rewrite Hp, Hv, Hc;
      repeat split; (lia || assumption).
  - rewrite !constructions_app, !constructions_single.
    unfold Main.ready_to_chat. cbn. rewrite Hp, Hv, Hc.
    repeat split; (lia || assumption).
Qed.

(** * Further properties of the code *)

(** ** The preprocessing handler *)

Lemma validate_links_find (C : Preprocess.Collaborators)
    (links_list : list string) (st : Main.Session * Preprocess.plog) :
  Preprocess.validate_links C links_list st
  = match find (fun link => negb (Preprocess.url C link)) links_list with
    | Some link =>
        (Preprocess.Failed (Preprocess.Http 400 ("❌ Invalid URL: " ++ link)),
         st)
    | None => (Preprocess.Done tt, st)
    end.
Proof.
  induction links_list as [| link rest IH]; [reflexivity |].
  cbn [Preprocess.validate_links find].
  destruct (negb (Preprocess.url C link)); [reflexivity | apply IH].
Qed.

Lemma validate_files_forallb (doc_files : list Preprocess.UploadFile)
    (st : Main.Session * Preprocess.plog) :
  Preprocess.validate_files doc_files st
  = if forallb (fun file => Py.truthy (Preprocess.filename file)) doc_files
    then (Preprocess.Done tt, st)
    else (Preprocess.Failed
            (Preprocess.Http 400 "❌ One of the uploaded files is empty!"),
          st).
Proof.
  induction doc_files as [| file rest IH]; [reflexivity |].
  cbn [Preprocess.validate_files forallb].
  destruct (Py.truthy (Preprocess.filename file)); [apply IH | reflexivity].
Qed.

Ltac pre_unfold :=
  unfold Preprocess.handle_preprocess, Preprocess.preprocess,
    Preprocess.try_except, Preprocess.pbind, Preprocess.pprint,
    Preprocess.plift, Preprocess.pcall, Preprocess.mark_done,
    Preprocess.pret, Preprocess.praise;
  cbn [fst snd].

Ltac innermost_case :=
  match goal with
  | |- context [match ?x with _ => _ end] =>
      lazymatch x with
      | context [match _ with _ => _ end] => fail
      | _ => destruct x eqn:?
      end
  end.

Ltac pre_cases :=
  repeat (first [ rewrite validate_links_find
                | rewrite validate_files_forallb
                | innermost_case ];
          cbn [fst snd]).

(** X1. Whatever goes wrong in the preprocessing handler, the caller
    gets status 500 with a detail that starts "Unexpected Error: ", also
    for the validation failures raised inside as status 400, and the
    session is as before; a success reply means that no validation
    failed and that [preprocessing_done] alone was set. *)
Theorem preprocess_reply_shape
    (C : Preprocess.Collaborators) (doc_files : list Preprocess.UploadFile)
    (links embedding_model : string) (chunk_size chunk_overlap : Z)
    (s : Main.Session) (log : Preprocess.plog) :
  let '(rep, s', _) :=
    Preprocess.handle_preprocess C doc_files links embedding_model chunk_size
      chunk_overlap s log in
  match rep with
  | Preprocess.HTTPException status_code detail =>
      status_code = 500 /\ s' = s
      /\ exists e, detail = "Unexpected Error: " ++ Preprocess.str_raised C e
  | Preprocess.Success status _ _ =>
      status = "success" /\ s' = marked_done s
      /\ first_rejection C doc_files links = None
  end.
Proof.
  unfold first_rejection. pre_unfold. pre_cases.
  all: repeat split; eauto.
Qed.

Ltac norm_log := repeat rewrite <- app_assoc; cbn [app].

(** X2. A request that fails a validation (links that do not decode,
    the first invalid link, no document, a document without a name, in
    that order) is answered before any collaborator is called: the log
    holds the five entry lines and the error line, the session is
    untouched, and the detail wraps the text of the rejection. *)
Theorem preprocess_rejects_before_any_call
    (C : Preprocess.Collaborators) (doc_files : list Preprocess.UploadFile)
    (links embedding_model : string) (chunk_size chunk_overlap : Z)
    (s : Main.Session) (log : Preprocess.plog) (e : Preprocess.raised) :
  first_rejection C doc_files links = Some e ->
  Preprocess.handle_preprocess C doc_files links embedding_model chunk_size
    chunk_overlap s log
  = (Preprocess.HTTPException 500
       ("Unexpected Error: " ++ Preprocess.str_raised C e),
     s,
     (log
      ++ entry_prints doc_files links embedding_model chunk_size chunk_overlap
      ++ [Preprocess.PPrint
            ("❌ Unexpected Error: " ++ Preprocess.str_raised C e ++ Py.nl)])%list).
Proof.
  unfold first_rejection, entry_prints. pre_unfold. pre_cases.
  all: intros H; try discriminate H; injection H as <-.
  all: norm_log; reflexivity.
Qed.

Lemma preprocess_rejects_before_any_call_witness :
  Preprocess.handle_preprocess C_stub one_file "ftp://a.org" "model" 500 50
    Main.session_state []
  = (Preprocess.HTTPException 500
       "Unexpected Error: 400: ❌ Invalid URL: ftp://a.org",
     Main.session_state,
     (entry_prints one_file "ftp://a.org" "model" 500 50
      ++ [Preprocess.PPrint
            ("❌ Unexpected Error: 400: ❌ Invalid URL: ftp://a.org"
             ++ Py.nl)])%list).
Proof.
  exact (preprocess_rejects_before_any_call C_stub one_file "ftp://a.org"
           "model" 500 50 Main.session_state []
           (Preprocess.Http 400 ("❌ Invalid URL: " ++ "ftp://a.org"))
           eq_refl).
Defined.

Lemma preprocess_after_validation
    (C : Preprocess.Collaborators) (doc_files : list Preprocess.UploadFile)
    (links embedding_model : string) (chunk_size chunk_overlap : Z)
    (s : Main.Session) (log : Preprocess.plog) (links_list : list string) :
  let log5 :=
    (log ++ entry_prints doc_files links embedding_model chunk_size
              chunk_overlap)%list in
  let wrapped (inner : string) (e : exn) :=
    "Unexpected Error: "
    ++ Preprocess.str_http C 500 (inner ++ str_exn e) in
  first_rejection C doc_files links = None ->
  Preprocess.json_loads C links = Ret links_list ->
  Preprocess.handle_preprocess C doc_files links embedding_model chunk_size
    chunk_overlap s log
  = match Preprocess.scrape_web_data C log5 links_list with
    | Raise e =>
        (Preprocess.HTTPException 500 (wrapped "Web Scraping failed: " e), s,
         (log5
          ++ [Preprocess.PScrape links_list;
              Preprocess.PPrint ("❌ Web scraping error: " ++ str_exn e);
              Preprocess.PPrint
                ("❌ " ++ wrapped "Web Scraping failed: " e ++ Py.nl)])%list)
    | Ret scraped_content =>
        match Preprocess.json_dumps C scraped_content with
        | Raise e =>
            (Preprocess.HTTPException 500 (wrapped "Web Scraping failed: " e),
             s,
             (log5
              ++ [Preprocess.PScrape links_list;
                  Preprocess.PPrint ("✅ Web Scraping Completed!" ++ Py.nl);
                  Preprocess.PPrint ("❌ Web scraping error: " ++ str_exn e);
                  Preprocess.PPrint
                    ("❌ " ++ wrapped "Web Scraping failed: " e ++ Py.nl)])%list)
        | Ret dumped =>
            let log8 :=
              (log5
               ++ [Preprocess.PScrape links_list;
                   Preprocess.PPrint ("✅ Web Scraping Completed!" ++ Py.nl);
                   Preprocess.PPrint dumped])%list in
            let call :=
              Preprocess.PVectordbs doc_files links_list embedding_model
                chunk_size chunk_overlap in
            match
              Preprocess.preprocess_vectordbs C log8 doc_files links_list
                embedding_model chunk_size chunk_overlap
            with
            | Raise e =>
                (Preprocess.HTTPException 500
                   (wrapped "Preprocessing failed: " e),
                 s,
                 (log8
                  ++ [call;
                      Preprocess.PPrint
                        ("❌ Error in preprocess_vectordbs: " ++ str_exn e
                         ++ Py.nl);
                      Preprocess.PPrint
                        ("❌ " ++ wrapped "Preprocessing failed: " e
                         ++ Py.nl)])%list)
            | Ret _ =>
                (Preprocess.Success "success"
                   "Preprocessing completed successfully!" scraped_content,
                 marked_done s, (log8 ++ [call])%list)
            end
        end
    end.
Proof.
  intros log5 wrapped Hok Hlinks. subst log5 wrapped.
  unfold first_rejection in Hok. rewrite Hlinks in Hok.
  unfold entry_prints. pre_unfold. rewrite Hlinks. cbn [fst snd].
  rewrite validate_links_find.
  destruct (find _ links_list); [discriminate Hok |].
  destruct doc_files as [| file rest]; [discriminate Hok |].
  cbn [fst snd]. rewrite validate_files_forallb.
  destruct (forallb _ (file :: rest)); [| discriminate Hok].
  cbn [fst snd]. norm_log.
  destruct (Preprocess.scrape_web_data C _ links_list) as [sc | e];
    cbn [fst snd]; [| norm_log; reflexivity].
  destruct (Preprocess.json_dumps C sc) as [dumped | e];
    cbn [fst snd]; [| norm_log; reflexivity].
  norm_log.
  destruct (Preprocess.preprocess_vectordbs C _ _ _ _ _ _) as [[] | e];
    cbn [fst snd]; norm_log; reflexivity.
Qed.

Ltac emits_none :=
  match goal with
  | |- emits _ (bind (attr None _) _) =>
      apply emits_bind_attr; intros ? ?; discriminate
  end.

Ltac emits_walk_none := repeat first [ emits_none | emits_step ].

Ltac run_cases :=
  unfold attr; unfold bind, call, ret, raise, lift, print; cbn [fst snd];
  repeat (innermost_case; cbn [fst snd]).

Lemma adapters_without_handle
    (W : World) (chat_model question : string)
    (emb docstore : option handle) (chat_history : list message)
    (tr : trace) :
  (is_raise (fst (inference_faiss W chat_model question emb None docstore
                    chat_history tr)) = true
   /\ emits quiet
        (inference_faiss W chat_model question emb None docstore
           chat_history))
  /\ (is_raise (fst (inference_qdrant W chat_model question emb None
                       chat_history tr)) = true
      /\ emits quiet
           (inference_qdrant W chat_model question emb None chat_history))
  /\ (is_raise (fst (inference_pinecone W chat_model question emb None
                       chat_history tr)) = true
      /\ emits quiet
           (inference_pinecone W chat_model question emb None chat_history))
  /\ (is_raise (fst (inference_weaviate W chat_model question None
                       chat_history tr)) = true
      /\ emits quiet
           (inference_weaviate W chat_model question None chat_history)).
Proof.
  repeat split.
  all: unfold inference_faiss, inference_qdrant, inference_pinecone,
         inference_weaviate, ChatTogether, invoke.
  all: try (emits_walk_none; split; reflexivity).
  all: run_cases; reflexivity.
Qed.

(** X12. An adapter whose backend handle is [None] (the index for
    FAISS, the client for Qdrant, the index for Pinecone, the vector store
    for Weaviate) always raises, without any retrieval call and without
    any language-model call. *)
Theorem missing_handle_raises
    (W : World) (chat_model question : string)
    (emb docstore : option handle) (chat_history : list message)
    (tr : trace) :
  (is_raise (fst (inference_faiss W chat_model question emb None docstore
                    chat_history tr)) = true
   /\ emits quiet
        (inference_faiss W chat_model question emb None docstore
           chat_history))
  /\ (is_raise (fst (inference_qdrant W chat_model question emb None
                       chat_history tr)) = true
      /\ emits quiet
           (inference_qdrant W chat_model question emb None chat_history))
  /\ (is_raise (fst (inference_pinecone W chat_model question emb None
                       chat_history tr)) = true
      /\ emits quiet
           (inference_pinecone W chat_model question emb None chat_history))
  /\ (is_raise (fst (inference_weaviate W chat_model question None
                       chat_history tr)) = true
      /\ emits quiet
           (inference_weaviate W chat_model question None chat_history)).
Proof.
  exact (adapters_without_handle W chat_model question emb docstore
           chat_history tr).
Qed.

Lemma needs_handle_cases (name : string) :
  needs_handle name = true ->
  name = "FAISS" \/ name = "Qdrant" \/ name = "Pinecone"
  \/ name = "Weaviate".
Proof.
  unfold needs_handle. intros H.
  repeat (apply orb_true_iff in H; destruct H as [H | H]);
    apply String.eqb_eq in H; auto.
Qed.

(** Decide the comparisons of two literal names. *)
Ltac eval_eqb :=
  repeat match goal with
         | |- context [String.eqb ?a ?b] =>
             let v := eval vm_compute in (String.eqb a b) in
             change (String.eqb a b) with v
         end;
  cbv iota.

Lemma raises_through_bind {A B} (m : M A) (k : A -> M B) (tr : trace) :
  is_raise (fst (m tr)) = true -> is_raise (fst (bind m k tr)) = true.
Proof.
  unfold bind. destruct (m tr) as [[a | e] tr']; [discriminate | auto].
Qed.

Lemma inference_without_handles
    (W : World) (vectordb_name chat_model question : string)
    (retriever emb docstore : option handle) (chat_history : list message)
    (tr : trace) :
  needs_handle vectordb_name = true ->
  is_raise
    (fst (inference W vectordb_name chat_model question retriever emb None
            docstore None None chat_history tr)) = true
  /\ emits quiet
       (inference W vectordb_name chat_model question retriever emb None
          docstore None None chat_history).
Proof.
  intros Hname. split.
  - assert (Hsome : forall m tr',
               is_raise
                 (fst (inference W vectordb_name chat_model question retriever
                         (Some m) None docstore None None chat_history tr'))
               = true).
    { intros m tr'.
      destruct (adapters_without_handle W chat_model question (Some m)
                  docstore chat_history tr')
        as ((Hf & _) & (Hq & _) & (Hp & _) & (Hw & _)).
      destruct (needs_handle_cases _ Hname) as [-> | [-> | [-> | ->]]];
        unfold inference; eval_eqb;
        change (bind (ret (Some m)) ?k tr') with (k (Some m) tr');
        cbv beta; apply raises_through_bind; assumption. }
    destruct emb as [m |]; [apply Hsome |].
    rewrite inference_constructs_first.
    destruct (new_embeddings W tr); [apply Hsome | reflexivity].
  - destruct (needs_handle_cases _ Hname) as [-> | [-> | [-> | ->]]];
      unfold inference, inference_faiss, inference_qdrant,
        inference_pinecone, inference_weaviate, OpenAIEmbeddings,
        ChatTogether, invoke;
      eval_eqb; emits_walk_none; split; reflexivity.
Qed.

Lemma preprocess_session
    (C : Preprocess.Collaborators) (doc_files : list Preprocess.UploadFile)
    (links embedding_model : string) (chunk_size chunk_overlap : Z)
    (s : Main.Session) (log : Preprocess.plog) :
  let s' :=
    snd (fst (Preprocess.handle_preprocess C doc_files links embedding_model
                chunk_size chunk_overlap s log)) in
  s' = s \/ s' = marked_done s.
Proof. pre_unfold. pre_cases. all: auto. Qed.

Lemma step_cases (W : World) (C : Preprocess.Collaborators)
    (s s' : Main.Session) :
  step W C s s' ->
  s' = marked_done s
  \/ (exists v, s' = Main.set_selected_vectordb s (Some v))
  \/ (exists c, s' = Main.set_selected_chat_model s (Some c))
  \/ (exists ms,
        s' = Main.set_messages s ms
        /\ (ms = Main.messages s \/ ms = []
            \/ (exists prompt,
                  Main.ready_to_chat s = true
                  /\ (ms = (Main.messages s ++ [user_turn prompt])%list
                      \/ exists response,
                           ms = (Main.messages s
                                   ++ [user_turn prompt;
                                       assistant_turn response])%list)))).
Proof.
  intros [doc_files links embedding_model chunk_size chunk_overlap s0 log
         | vectordb s0 tr | chat_model s0 tr | prompt s0 tr | s0 tr].
  - destruct (preprocess_session C doc_files links embedding_model
                chunk_size chunk_overlap s0 log) as [-> | ->]; [| auto].
    right. right. right. exists (Main.messages s0).
    split; [now destruct s0 | auto].
  - right. left. exists vectordb. reflexivity.
  - right. right. left. exists chat_model. reflexivity.
  - right. right. right.
    unfold Main.chat_with_bot, Main.ready_to_chat.
    destruct (Main.preprocessing_done s0); cbn [negb andb].
    2: { exists (Main.messages s0). split; [now destruct s0 | auto]. }
    destruct (Py.truthy (Main.selected_vectordb s0)); cbn [negb andb orb].
    2: { exists (Main.messages s0). split; [now destruct s0 | auto]. }
    destruct (Py.truthy (Main.selected_chat_model s0)); cbn [negb andb orb].
    2: { exists (Main.messages s0). split; [now destruct s0 | auto]. }
    destruct (inference _ _ _ _ _ _ _ _ _ _ _ _) as [[response | e] tr'];
      cbn [fst snd Main.set_messages Main.messages].
    + eexists. split; [reflexivity |]. right. right. exists prompt.
      split; [reflexivity |]. right. exists response.
      now rewrite <- app_assoc.
    + eexists. split; [reflexivity |]. right. right. exists prompt.
      split; [reflexivity |]. left. reflexivity.
  - right. right. right. exists []. split; [reflexivity | auto].
Qed.

Lemma dialogue_from_user (turns : list message) (b : bool) (prompt : string) :
  dialogue_from b (turns ++ [user_turn prompt])%list = dialogue_from b turns.
Proof.
  revert b. induction turns as [| turn later IH]; intro b; [reflexivity |].
  cbn [app dialogue_from].
  destruct (String.eqb (role turn) "user"); [apply IH |].
  destruct (String.eqb (role turn) "assistant"); [| reflexivity].
  now rewrite IH.
Qed.

Lemma dialogue_from_exchange (turns : list message) (b : bool)
    (prompt : string) (response : Py.value) :
  dialogue_from b
    (turns ++ [user_turn prompt; assistant_turn response])%list
  = dialogue_from b turns.
Proof.
  revert b. induction turns as [| turn later IH]; intro b; [reflexivity |].
  cbn [app dialogue_from].
  destruct (String.eqb (role turn) "user"); [apply IH |].
  destruct (String.eqb (role turn) "assistant"); [| reflexivity].
  now rewrite IH.
Qed.

Lemma no_handle_is_stored
    (W : World) (C : Preprocess.Collaborators) (s : Main.Session) :
  reachable W C s -> no_handles s.
Proof.
  induction 1 as [| s s' _ IH Hstep]; [repeat split |].
  destruct (step_cases W C s s' Hstep)
    as [-> | [[v ->] | [[c ->] | [ms [-> _]]]]];
    exact IH.
Qed.

(** X7. No handler of main.py stores a backend handle or an embedding
    model: in every session the handlers can produce from the initial
    one, the retriever, index, docstore, Pinecone index, vector store and
    embedding model entries are [None]. *)
Theorem handlers_store_no_handle
    (W : World) (C : Preprocess.Collaborators) (s : Main.Session) :
  reachable W C s -> no_handles s.
Proof. exact (no_handle_is_stored W C s). Qed.

(** X9. The turn history of every session the handlers can produce is
    a dialogue: each turn is a user's or an assistant's, and every
    assistant turn comes right after a user turn. *)
Theorem history_is_a_dialogue
    (W : World) (C : Preprocess.Collaborators) (s : Main.Session) :
  reachable W C s -> dialogue (Main.messages s) = true.
Proof.
  induction 1 as [| s s' _ IH Hstep]; [reflexivity |].
  destruct (step_cases W C s s' Hstep)
    as [-> | [[v ->] | [[c ->] | [ms [-> Hms]]]]]; try exact IH.
  cbn [Main.set_messages Main.messages]. unfold dialogue in *.
  destruct Hms as [-> | [-> | [prompt [_ [-> | [response ->]]]]]].
  - exact IH.
  - reflexivity.
  - now rewrite dialogue_from_user.
  - now rewrite dialogue_from_exchange.
Qed.

(** X6. A session that can chat can still chat after any request,
    unless that request selected the empty string as vector database or
    as chat model. *)
Theorem readiness_lost_only_by_empty_selection
    (W : World) (C : Preprocess.Collaborators) (s s' : Main.Session) :
  step W C s s' ->
  Main.ready_to_chat s = true ->
  Main.ready_to_chat s' = true
  \/ s' = Main.set_selected_vectordb s (Some "")
  \/ s' = Main.set_selected_chat_model s (Some "").
Proof.
  intros Hstep Hready.
  destruct (ready_to_chat_guards s Hready) as (Hp & Hv & Hc).
  destruct (step_cases W C s s' Hstep)
    as [-> | [[v ->] | [[c ->] | [ms [-> _]]]]].
  - left. unfold Main.ready_to_chat. cbn. now rewrite Hv, Hc.
  - destruct v as [| a v]; [auto |]. left.
    unfold Main.ready_to_chat. cbn. now rewrite Hp, Hc.
  - destruct c as [| a c]; [auto |]. left.
    unfold Main.ready_to_chat. cbn. now rewrite Hp, Hv.
  - left. exact Hready.
Qed.

Lemma readiness_lost_only_by_empty_selection_witness :
  Main.ready_to_chat (ready_session "FAISS") = true
  /\ (Main.ready_to_chat
        (snd (fst (Main.chat_with_bot W_down "hi" (ready_session "FAISS") [])))
      = true
      \/ snd (fst (Main.chat_with_bot W_down "hi" (ready_session "FAISS") []))
         = Main.set_selected_vectordb (ready_session "FAISS") (Some "")
      \/ snd (fst (Main.chat_with_bot W_down "hi" (ready_session "FAISS") []))
         = Main.set_selected_chat_model (ready_session "FAISS") (Some "")).
Proof.
  split; [reflexivity |].
  exact (readiness_lost_only_by_empty_selection W_down C_stub
           (ready_session "FAISS") _
           (step_chat W_down C_stub "hi" (ready_session "FAISS") [])
           eq_refl).
Defined.

Lemma ready_session_reachable (vectordb : string) :
  reachable W_stub C_stub (ready_session vectordb).
Proof.
  pose proof (reach_start W_stub C_stub) as H0.
  pose proof (reach_step _ _ _ _ H0
                (step_preprocess W_stub C_stub one_file "https://a.org"
                   "model" 500 50 Main.session_state [])) as H1.
  pose proof (reach_step _ _ _ _ H1
                (step_select_vectordb W_stub C_stub vectordb _ [])) as H2.
  exact (reach_step _ _ _ _ H2
           (step_select_chat_model W_stub C_stub
              "meta-llama/Llama-3-8b-chat-hf" _ [])).
Qed.

Lemma chat_when_inference_raises
    (W : World) (prompt : string) (s : Main.Session) (tr : trace) :
  Main.ready_to_chat s = true ->
  is_raise
    (fst (inference W (Py.str_of (Main.selected_vectordb s))
            (Py.str_of (Main.selected_chat_model s)) prompt
            (Main.retriever s) (Main.embedding_model_global s) (Main.index s)
            (Main.docstore s) (Main.pinecone_index s) (Main.vs s)
            (Main.messages s ++ [user_turn prompt])%list tr)) = true ->
  exists e,
    Main.chat_with_bot W prompt s tr
    = (Main.HTTPException 500 ("Inference Error: " ++ str_exn e),
       Main.set_messages s (Main.messages s ++ [user_turn prompt])%list,
       (snd (inference W (Py.str_of (Main.selected_vectordb s))
               (Py.str_of (Main.selected_chat_model s)) prompt
               (Main.retriever s) (Main.embedding_model_global s)
               (Main.index s) (Main.docstore s) (Main.pinecone_index s)
               (Main.vs s) (Main.messages s ++ [user_turn prompt])%list tr)
        ++ [EPrint ("❌ Error in inference: " ++ str_exn e ++ Py.nl)])%list).
Proof.
  intros Hready Hraise.
  destruct (ready_to_chat_guards s Hready) as (Hp & Hv & Hc).
  unfold Main.chat_with_bot. rewrite Hp, Hv, Hc. cbn [negb orb].
  cbn [Main.retriever Main.embedding_model_global Main.index Main.docstore
       Main.pinecone_index Main.vs Main.selected_vectordb
       Main.selected_chat_model Main.messages Main.set_messages].
  fold (user_turn prompt).
  destruct (inference _ _ _ _ _ _ _ _ _ _ _ _) as [[response | e] tr1];
    [discriminate Hraise |].
  exists e. reflexivity.
Qed.

(** X8. In such a session a chat call on FAISS, Qdrant, Pinecone or
    Weaviate never answers: it ends in status 500, keeps the user's turn,
    and has made no retrieval call and no language-model call. *)
Theorem stored_handles_never_answer
    (W : World) (C : Preprocess.Collaborators) (prompt : string)
    (s : Main.Session) (tr : trace) :
  reachable W C s ->
  Main.ready_to_chat s = true ->
  needs_handle (Py.str_of (Main.selected_vectordb s)) = true ->
  let '(rep, s', tr') := Main.chat_with_bot W prompt s tr in
  (exists detail, rep = Main.HTTPException 500 detail)
  /\ Main.messages s' = (Main.messages s ++ [user_turn prompt])%list
  /\ exists out, tr' = (tr ++ out)%list /\ Forall quiet out.
Proof.
  intros Hreach Hready Hname.
  destruct (no_handle_is_stored W C s Hreach)
    as (Hr & Hi & Hd & Hp & Hv & He).
  pose proof (inference_without_handles W
                (Py.str_of (Main.selected_vectordb s))
                (Py.str_of (Main.selected_chat_model s)) prompt
                (Main.retriever s) (Main.embedding_model_global s)
                (Main.docstore s)
                (Main.messages s ++ [user_turn prompt])%list tr Hname)
    as [Hraise Hquiet].
  destruct (chat_when_inference_raises W prompt s tr Hready) as [e ->].
  { now rewrite Hi, Hp, Hv. }
  split; [eauto |]. split; [reflexivity |].
  rewrite Hi, Hp, Hv.
  destruct (Hquiet tr) as [out [-> F]].
  exists (out ++ [EPrint ("❌ Error in inference: " ++ str_exn e ++ Py.nl)])%list.
  rewrite app_assoc. split; [reflexivity |].
  apply Forall_app. split; [exact F |].
  constructor; [split; reflexivity | constructor].
Qed.

Lemma stored_handles_never_answer_witness :
  let '(rep, s', tr') :=
    Main.chat_with_bot W_stub "What is compound interest?"
      (ready_session "FAISS") [] in
  (exists detail, rep = Main.HTTPException 500 detail)
  /\ Main.messages s' = [user_turn "What is compound interest?"]
  /\ exists out, tr' = out /\ Forall quiet out.
Proof.
  exact (stored_handles_never_answer W_stub C_stub
           "What is compound interest?" (ready_session "FAISS") []
           (ready_session_reachable "FAISS") eq_refl eq_refl).
Defined.

(** X10. A chat call of a session whose selected backend is outside
    the closed set is answered as a success whose response is [None]:
    after the embedding model is constructed, "Invalid Choice" is
    printed, and an assistant turn with content [None] joins the
    history. *)
Theorem unknown_backend_is_answered_with_none
    (W : World) (prompt : string) (s : Main.Session) (tr : trace)
    (m : handle) :
  Main.ready_to_chat s = true ->
  supported (Py.str_of (Main.selected_vectordb s)) = false ->
  Main.embedding_model_global s = None ->
  new_embeddings W tr = Ret m ->
  Main.chat_with_bot W prompt s tr
  = (Main.Json "response" Py.VNone,
     Main.set_messages s
       (Main.messages s ++ [user_turn prompt; assistant_turn Py.VNone])%list,
     (tr ++ [ENewEmbeddings; EPrint "Invalid Choice";
             EPrint ("🤖 Chatbot Response: None" ++ Py.nl)])%list).
Proof.
  intros Hready Hname Hnone Hnew.
  destruct (ready_to_chat_guards s Hready) as (Hp & Hv & Hc).
  apply unsupported_names in Hname.
  destruct Hname as (H1 & H2 & H3 & H4 & H5).
  unfold Main.chat_with_bot. rewrite Hp, Hv, Hc. cbn [negb orb].
  cbn [Main.retriever Main.embedding_model_global Main.index Main.docstore
       Main.pinecone_index Main.vs Main.selected_vectordb
       Main.selected_chat_model Main.messages Main.set_messages].
  rewrite Hnone, inference_constructs_first, Hnew.
  unfold inference. unfold bind at 1. cbn [ret].
  rewrite H1, H2, H3, H4, H5.
  unfold bind, print, ret. cbn [Py.str].
  unfold user_turn, assistant_turn. repeat rewrite <- app_assoc. reflexivity.
Qed.

Lemma unknown_backend_is_answered_with_none_witness :
  Main.chat_with_bot W_stub "hello" (ready_session "Milvus") []
  = (Main.Json "response" Py.VNone,
     Main.set_messages (ready_session "Milvus")
       [user_turn "hello"; assistant_turn Py.VNone],
     [ENewEmbeddings; EPrint "Invalid Choice";
      EPrint ("🤖 Chatbot Response: None" ++ Py.nl)]).
Proof.
  exact (unknown_backend_is_answered_with_none W_stub "hello"
           (ready_session "Milvus") [] 1%nat eq_refl eq_refl eq_refl eq_refl).
Defined.


Lemma string_app_assoc (a b c : string) : (a ++ b) ++ c = a ++ b ++ c.
Proof. induction a as [| ch a IH]; cbn; [reflexivity | now rewrite IH]. Qed.








(** X15. When the index search returns no id (no row, or an empty
    first row), the similarity-index adapter raises [IndexError] and the
    document store is never read. *)
Theorem faiss_empty_answer_raises
    (W : World) (chat_model question : string) (emb index : handle)
    (docstore : option handle) (chat_history : list message) (tr : trace)
    (chat : handle) (query_embedding : embedding) (D' I' : list (list Z)) :
  let v := components query_embedding in
  let tr1 := (tr ++ [ENewChat chat_model])%list in
  let tr2 := (tr1 ++ [EEmbedQuery emb question])%list in
  new_chat W tr chat_model = Ret chat ->
  embed_query W tr1 emb question = Ret query_embedding ->
  index_search W tr2 index [v] 1 = Ret (D', I') ->
  hd [] I' = [] ->
  inference_faiss W chat_model question (Some emb) (Some index) docstore
    chat_history tr
  = (Raise (IndexError "index 0 is out of bounds for axis 0 with size 0"),
     (tr2 ++ [EIndexSearch index [v] 1])%list).
Proof.
  intros v tr1 tr2 Hchat Hembed Hsearch Hempty. subst v tr1 tr2.
  unfold inference_faiss, ChatTogether.
  unfold bind at 1. unfold call at 1. rewrite Hchat.
  unfold bind at 1. unfold call at 1. rewrite Hembed.
  unfold bind at 1. unfold attr at 1, ret at 1.
  unfold bind at 1. unfold call at 1. rewrite Hsearch.
  unfold bind at 1. unfold lift at 1.
  destruct I' as [| [| x row] rows]; [reflexivity | reflexivity |].
  discriminate Hempty.
Qed.

Lemma faiss_empty_answer_raises_witness :
  inference_faiss W_empty_index "model" "What is APR?" (Some 1%nat)
    (Some 10%nat) (Some 11%nat) two_turns []
  = (Raise (IndexError "index 0 is out of bounds for axis 0 with size 0"),
     [ENewChat "model"; EEmbedQuery 1%nat "What is APR?";
      EIndexSearch 10%nat [[3; 1; 4]] 1]).
Proof.
  exact (faiss_empty_answer_raises W_empty_index "model" "What is APR?" 1%nat
           10%nat (Some 11%nat) two_turns [] 2%nat (PyList [3; 1; 4]) [[]]
           [[]]
           eq_refl eq_refl eq_refl eq_refl).
Defined.

(** X16. The Chroma and Weaviate adapters make no embedding call and no
    search call of their own: they construct the chat model, (Weaviate)
    ask the store for its retriever, invoke their chain and print. *)
Theorem chain_adapters_delegate_retrieval
    (W : World) (chat_model question : string)
    (retriever vs : option handle) (chat_history : list message) :
  emits delegated
    (inference_chroma W chat_model question retriever chat_history)
  /\ emits delegated
       (inference_weaviate W chat_model question vs chat_history).
Proof.
  split; unfold inference_chroma, inference_weaviate, ChatTogether, invoke;
    emits_walk; exact I.
Qed.




(** X18. The history text of a sequence of turns made of two non-empty
    parts is the text of the first part, a newline, and the text of the
    second part. *)
Theorem history_of_two_parts (W : World) (earlier later : list message) :
  earlier <> [] ->
  later <> [] ->
  Py.join Py.nl
    (map (fun msg => capitalize W (role msg) ++ ": " ++ Py.str (content msg))
         (earlier ++ later)%list)
  = Py.join Py.nl
      (map (fun msg =>
              capitalize W (role msg) ++ ": " ++ Py.str (content msg))
           earlier)
    ++ Py.nl
    ++ Py.join Py.nl
         (map (fun msg =>
                 capitalize W (role msg) ++ ": " ++ Py.str (content msg))
              later).
Proof.
  intros Hearlier Hlater. rewrite !join_lines_rendered.
  induction earlier as [| turn rest IH]; [contradiction |].
  destruct rest as [| next rest'].
  - destruct later as [| first later']; [contradiction | reflexivity].
  - change (rendered_history W ((turn :: next :: rest') ++ later)%list)
      with (history_line W turn ++ Py.nl
            ++ rendered_history W ((next :: rest') ++ later)%list).
    rewrite IH by discriminate.
    change (rendered_history W (turn :: next :: rest'))
      with (history_line W turn ++ Py.nl ++ rendered_history W (next :: rest')).
    now rewrite !string_app_assoc.
Qed.

Lemma history_of_two_parts_witness :
  Py.join Py.nl
    (map (fun msg =>
            capitalize W_stub (role msg) ++ ": " ++ Py.str (content msg))
         (two_turns ++ [user_turn "and then?"])%list)
  = "User: hi" ++ Py.nl ++ "Assistant: hello" ++ Py.nl ++ "User: and then?".
Proof.
  exact (history_of_two_parts W_stub two_turns [user_turn "and then?"]
           ltac:(discriminate) ltac:(discriminate)).
Defined.

(** X5. After a successful preprocessing and the selection of a
    non-empty vector database name and a non-empty chat model name, the
    session can chat, and a chat call is never turned away with status
    400; the names are not checked against the supported backends. *)
Theorem chat_opens_after_preprocess_and_selections
    (W : World) (C : Preprocess.Collaborators)
    (doc_files : list Preprocess.UploadFile)
    (links embedding_model vectordb chat_model prompt : string)
    (chunk_size chunk_overlap : Z) (s : Main.Session)
    (log : Preprocess.plog) (tr1 tr2 tr : trace) :
  let served :=
    Preprocess.handle_preprocess C doc_files links embedding_model chunk_size
      chunk_overlap s log in
  let selected :=
    snd (fst (Main.select_chat_model chat_model
                (snd (fst (Main.select_vectordb vectordb (snd (fst served))
                             tr1)))
                tr2)) in
  (exists scraped_content,
      fst (fst served)
      = Preprocess.Success "success" "Preprocessing completed successfully!"
          scraped_content) ->
  vectordb <> "" ->
  chat_model <> "" ->
  Main.ready_to_chat selected = true
  /\ forall detail,
       fst (fst (Main.chat_with_bot W prompt selected tr))
       <> Main.HTTPException 400 detail.
Proof.
  intros served selected [scraped_content Hserved] Hdb Hmodel.
  assert (Hdone : Main.preprocessing_done (snd (fst served)) = true).
  { subst served. revert Hserved. pre_unfold. pre_cases.
    all: intros H; try discriminate H; reflexivity. }
  assert (Hready : Main.ready_to_chat selected = true).
  { subst selected. unfold Main.ready_to_chat. cbn. rewrite Hdone.
    apply String.eqb_neq in Hdb, Hmodel. now rewrite Hdb, Hmodel. }
  split; [exact Hready |].
  destruct (ready_to_chat_guards selected Hready) as (Hp & Hv & Hc).
  intros detail. unfold Main.chat_with_bot. rewrite Hp, Hv, Hc.
  cbn [negb orb].
  destruct (inference _ _ _ _ _ _ _ _ _ _ _ _) as [[response | e] tr'];
    cbn [fst]; discriminate.
Qed.

Lemma chat_opens_after_preprocess_and_selections_witness :
  Main.ready_to_chat (ready_session "Chroma") = true
  /\ forall detail,
       fst (fst (Main.chat_with_bot W_stub "hi" (ready_session "Chroma") []))
       <> Main.HTTPException 400 detail.
Proof.
  exact (chat_opens_after_preprocess_and_selections W_stub C_stub one_file
           "https://a.org" "model" "Chroma" "meta-llama/Llama-3-8b-chat-hf"
           "hi" 500 50 Main.session_state [] [] [] []
           (ex_intro _ [("https://example.com", "Example Domain")] eq_refl)
           ltac:(discriminate) ltac:(discriminate)).
Defined.

(** X3. When the scraper raises, the documents are never handed to
    [preprocess_vectordbs], the session is untouched, and the error is
    wrapped twice: "Unexpected Error: " around the text of the status-500
    "Web Scraping failed: ..." exception. *)
Theorem preprocess_stops_when_scraping_fails
    (C : Preprocess.Collaborators) (doc_files : list Preprocess.UploadFile)
    (links embedding_model : string) (chunk_size chunk_overlap : Z)
    (s : Main.Session) (log : Preprocess.plog) (links_list : list string)
    (e : exn) :
  let log5 :=
    (log ++ entry_prints doc_files links embedding_model chunk_size
              chunk_overlap)%list in
  let detail :=
    "Unexpected Error: "
    ++ Preprocess.str_http C 500 ("Web Scraping failed: " ++ str_exn e) in
  first_rejection C doc_files links = None ->
  Preprocess.json_loads C links = Ret links_list ->
  Preprocess.scrape_web_data C log5 links_list = Raise e ->
  Preprocess.handle_preprocess C doc_files links embedding_model chunk_size
    chunk_overlap s log
  = (Preprocess.HTTPException 500 detail, s,
     (log5
      ++ [Preprocess.PScrape links_list;
          Preprocess.PPrint ("❌ Web scraping error: " ++ str_exn e);
          Preprocess.PPrint ("❌ " ++ detail ++ Py.nl)])%list).
Proof.
  intros log5 detail Hok Hlinks Hscrape.
  rewrite (preprocess_after_validation C doc_files links embedding_model
             chunk_size chunk_overlap s log links_list Hok Hlinks).
  cbv zeta. fold log5. rewrite Hscrape. reflexivity.
Qed.

Lemma preprocess_stops_when_scraping_fails_witness :
  Preprocess.handle_preprocess C_offline one_file "https://a.org" "model" 500
    50 Main.session_state []
  = (Preprocess.HTTPException 500
       "Unexpected Error: 500: Web Scraping failed: timed out",
     Main.session_state,
     (entry_prints one_file "https://a.org" "model" 500 50
      ++ [Preprocess.PScrape ["https://example.com"; "https://a.org"];
          Preprocess.PPrint "❌ Web scraping error: timed out";
          Preprocess.PPrint
            ("❌ Unexpected Error: 500: Web Scraping failed: timed out"
             ++ Py.nl)])%list).
Proof.
  exact (preprocess_stops_when_scraping_fails C_offline one_file
           "https://a.org" "model" 500 50 Main.session_state []
           ["https://example.com"; "https://a.org"]
           (ExternalError "TimeoutError" "timed out")
           eq_refl eq_refl eq_refl).
Defined.

(** X4. When every validation passes and the scraper, the dump of its
    result and [preprocess_vectordbs] return, the handler replies
    "success" with the scraped content as it came, sets
    [preprocessing_done] and nothing else, and has called the scraper and
    then [preprocess_vectordbs] once each, with the decoded links. *)
Theorem preprocess_succeeds
    (C : Preprocess.Collaborators) (doc_files : list Preprocess.UploadFile)
    (links embedding_model : string) (chunk_size chunk_overlap : Z)
    (s : Main.Session) (log : Preprocess.plog) (links_list : list string)
    (scraped_content : Preprocess.scraped) (dumped : string) :
  let log5 :=
    (log ++ entry_prints doc_files links embedding_model chunk_size
              chunk_overlap)%list in
  let log8 :=
    (log5
     ++ [Preprocess.PScrape links_list;
         Preprocess.PPrint ("✅ Web Scraping Completed!" ++ Py.nl);
         Preprocess.PPrint dumped])%list in
  first_rejection C doc_files links = None ->
  Preprocess.json_loads C links = Ret links_list ->
  Preprocess.scrape_web_data C log5 links_list = Ret scraped_content ->
  Preprocess.json_dumps C scraped_content = Ret dumped ->
  Preprocess.preprocess_vectordbs C log8 doc_files links_list embedding_model
    chunk_size chunk_overlap = Ret tt ->
  Preprocess.handle_preprocess C doc_files links embedding_model chunk_size
    chunk_overlap s log
  = (Preprocess.Success "success" "Preprocessing completed successfully!"
       scraped_content,
     marked_done s,
     (log8
      ++ [Preprocess.PVectordbs doc_files links_list embedding_model
            chunk_size chunk_overlap])%list).
Proof.
  intros log5 log8 Hok Hlinks Hscrape Hdump Hvec.
  rewrite (preprocess_after_validation C doc_files links embedding_model
             chunk_size chunk_overlap s log links_list Hok Hlinks).
  cbv zeta. fold log5. rewrite Hscrape, Hdump. fold log8. rewrite Hvec.
  reflexivity.
Qed.

Lemma preprocess_succeeds_witness :
  Preprocess.handle_preprocess C_stub one_file "https://a.org" "model" 500 50
    Main.session_state []
  = (Preprocess.Success "success" "Preprocessing completed successfully!"
       [("https://example.com", "Example Domain")],
     marked_done Main.session_state,
     (entry_prints one_file "https://a.org" "model" 500 50
      ++ [Preprocess.PScrape ["https://example.com"; "https://a.org"];
          Preprocess.PPrint ("✅ Web Scraping Completed!" ++ Py.nl);
          Preprocess.PPrint "{}";
          Preprocess.PVectordbs one_file
            ["https://example.com"; "https://a.org"] "model" 500 50])%list).
Proof.
  exact (preprocess_succeeds C_stub one_file "https://a.org" "model" 500 50
           Main.session_state []
           ["https://example.com"; "https://a.org"]
           [("https://example.com", "Example Domain")] "{}"
           eq_refl eq_refl eq_refl eq_refl eq_refl).
Defined.

Lemma handlers_store_no_handle_witness :
  no_handles
    (snd (fst (Main.chat_with_bot W_stub "hi" (ready_session "Chroma") []))).
Proof.
  exact (handlers_store_no_handle W_stub C_stub _
           (reach_step _ _ _ _ (ready_session_reachable "Chroma")
              (step_chat W_stub C_stub "hi" (ready_session "Chroma") []))).
Defined.

Lemma history_is_a_dialogue_witness :
  Main.messages
    (snd (fst (Main.chat_with_bot W_stub "hi" (ready_session "Milvus") [])))
  = [user_turn "hi"; assistant_turn Py.VNone]
  /\ dialogue
       (Main.messages
          (snd (fst (Main.chat_with_bot W_stub "hi" (ready_session "Milvus")
                       []))))
     = true.
Proof.
  split; [reflexivity |].
  exact (history_is_a_dialogue W_stub C_stub _
           (reach_step _ _ _ _ (ready_session_reachable "Milvus")
              (step_chat W_stub C_stub "hi" (ready_session "Milvus") []))).
Defined.
